(** * eduVPN client: the profile lifecycle manager

    A shallow embedding of [eduvpn/manager.py] and of the background step of
    [eduvpn/steps/finalize.py], together with the properties of the profile
    operations (list, store, delete, disconnect, status, update, token
    refresh).

    The program talks to three pieces of outside state: NetworkManager
    (reached over D-Bus), the file system and the logger. They are gathered
    in one record, [world], and every function of the manager is a
    computation that takes a world and gives back an outcome (a value or a
    raised exception) together with the world it leaves behind. An exception
    does not undo what was done before it was raised. *)

From stdpp Require Import base option list strings gmap pretty.

#[local] Set Warnings "-register-all".

(** ** Python values *)

(** What [json.load] can give back and [json.dump] can take, which is also
    what the arguments of [store_provider] are made of. A [dict] keeps the
    insertion order of its keys. [VFloat] carries the literal of the number,
    [VObject] is an instance of a class, seen through its attributes. *)
Inductive value :=
| VNone
| VBool (b : bool)
| VInt (n : Z)
| VFloat (literal : string)
| VStr (s : string)
| VList (items : list value)
| VDict (entries : list (string * value))
| VObject (attrs : list (string * value)).

Definition dict := list (string * value).

(** [d[k]] and [getattr(o, k)] *)
Fixpoint dict_get (k : string) (d : dict) : option value :=
  match d with
  | [] => None
  | (k', v) :: d' => if decide (k' = k) then Some v else dict_get k d'
  end.

(** [d[k] = v]: an existing key keeps its place, a new one goes last. *)
Fixpoint dict_set (k : string) (v : value) (d : dict) : dict :=
  match d with
  | [] => [(k, v)]
  | (k', v') :: d' =>
      if decide (k' = k) then (k, v) :: d' else (k', v') :: dict_set k v d'
  end.

(** What is left of [d] after [d.pop(k)]. *)
Fixpoint dict_remove (k : string) (d : dict) : dict :=
  match d with
  | [] => []
  | (k', v) :: d' => if decide (k' = k) then d' else (k', v) :: dict_remove k d'
  end.

(** ** Exceptions *)

Inductive exn :=
| EduvpnException (msg : string)
| KeyError (key : string)
| IndexError (msg : string)
| TypeError (msg : string)
| ValueError (msg : string)
| AttributeError (msg : string)
| OSError (strerror filename : string)
| DBusException (msg : string).

(** [isinstance(e, (IOError, OSError))]; [IOError] is [OSError]. *)
Definition is_OSError (e : exn) : bool :=
  match e with OSError _ _ => true | _ => false end.

(** [type(e).__name__] *)
Definition exn_name (e : exn) : string :=
  match e with
  | EduvpnException _ => "EduvpnException"
  | KeyError _ => "KeyError"
  | IndexError _ => "IndexError"
  | TypeError _ => "TypeError"
  | ValueError _ => "ValueError"
  | AttributeError _ => "AttributeError"
  | OSError _ _ => "OSError"
  | DBusException _ => "DBusException"
  end.

(** [str(e)] *)
Definition exn_str (e : exn) : string :=
  match e with
  | EduvpnException m | IndexError m | TypeError m | ValueError m
  | AttributeError m | DBusException m => m
  | KeyError k => "'" +:+ k +:+ "'"
  | OSError m f => m +:+ ": '" +:+ f +:+ "'"
  end.

Inductive outcome (A : Type) :=
| Ok (a : A)
| Raise (e : exn).
Arguments Ok {A} a.
Arguments Raise {A} e.

(** ** NetworkManager *)

(** The settings of a connection: the [connection] block and, for a VPN
    connection, the [data] dictionary of the [vpn] block. *)
Record settings := Settings {
  conn_id : string;
  conn_uuid : string;
  conn_type : string;
  vpn_data : option (gmap string string)
}.

(** A connection object of [Settings.ListConnections()]. [obj_path] is its
    D-Bus object path, [delete_error] the error the service answers to
    [Delete()] on it, if it refuses. *)
Record connection := Connection {
  obj_path : nat;
  GetSettings : settings;
  delete_error : option string
}.

Record address_entry := AddressEntry {
  address : string;
  prefix : nat
}.

Record ip_config := IpConfig {
  AddressData : list address_entry
}.

(** An element of [NetworkManager.ActiveConnections]. [deactivate_error] is
    the error the service answers to [DeactivateConnection] on it, if it
    refuses. *)
Record active_connection := ActiveConnection {
  Uuid : string;
  State : Z;
  Ip4Config : ip_config;
  Ip6Config : ip_config;
  deactivate_error : option string
}.

(** The requests that change the service's state, as they are sent. *)
Inductive nm_call :=
| CallAddConnection (s : settings)
| CallDelete (path : nat)
| CallDeactivateConnection (a : active_connection).

(** ** File system, log, main-loop queue *)

Inductive fnode :=
| File (content : string)
| Dir.

Definition is_file (n : option fnode) : bool :=
  match n with Some (File _) => true | _ => false end.

Inductive level := INFO | ERROR.

(** The callbacks handed to [GLib.idle_add]. *)
Inductive ui_event :=
| ErrorHelper (title message : string)
| DialogHide
| Notify (title message : string)
| UpdateProviders.

(** ** The world *)

Record world := World {
  nm_connections : list connection;
  nm_active : list active_connection;
  nm_add_error : option string;
  nm_calls : list nm_call;
  files : gmap string fnode;
  log : list (level * string);
  idle_queue : list ui_event
}.

Definition set_connections (cs : list connection) (w : world) : world :=
  World cs (nm_active w) (nm_add_error w) (nm_calls w) (files w) (log w)
        (idle_queue w).

Definition set_files (fs : gmap string fnode) (w : world) : world :=
  World (nm_connections w) (nm_active w) (nm_add_error w) (nm_calls w) fs
        (log w) (idle_queue w).

Definition add_call (c : nm_call) (w : world) : world :=
  World (nm_connections w) (nm_active w) (nm_add_error w) (nm_calls w ++ [c])
        (files w) (log w) (idle_queue w).

Definition add_log (l : level) (msg : string) (w : world) : world :=
  World (nm_connections w) (nm_active w) (nm_add_error w) (nm_calls w)
        (files w) (log w ++ [(l, msg)]) (idle_queue w).

Definition add_idle (e : ui_event) (w : world) : world :=
  World (nm_connections w) (nm_active w) (nm_add_error w) (nm_calls w)
        (files w) (log w) (idle_queue w ++ [e]).

(** ** Computations *)

Definition M (A : Type) : Type := world → outcome A * world.

Definition ret {A} (a : A) : M A := λ w, (Ok a, w).

Definition raise {A} (e : exn) : M A := λ w, (Raise e, w).

Definition bind {A B} (m : M A) (k : A → M B) : M B :=
  λ w, match m w with
       | (Ok a, w') => k a w'
       | (Raise e, w') => (Raise e, w')
       end.

Notation "x <~ m ;; k" := (bind m (λ x, k))
  (at level 100, m at next level, right associativity,
   format "x  <~  m  ;;  '//' k").
Notation "m ;;; k" := (bind m (λ _, k))
  (at level 100, right associativity, format "m  ;;;  '//' k").

(** [try: body except <catches> as e: handler(e)] *)
Definition try_except {A} (body : M A) (catches : exn → bool)
    (handler : exn → M A) : M A :=
  λ w, match body w with
       | (Ok a, w') => (Ok a, w')
       | (Raise e, w') => if catches e then handler e w' else (Raise e, w')
       end.

Definition any_Exception (e : exn) : bool := true.

(** [for x in xs: body(x)] *)
Fixpoint for_each {A} (xs : list A) (body : A → M unit) : M unit :=
  match xs with
  | [] => ret tt
  | x :: xs' => body x ;;; for_each xs' body
  end.

Definition lift_outcome {A} (o : outcome A) : M A := λ w, (o, w).

(** A helper that only touches the file system. *)
Definition lift_fs {A}
    (f : gmap string fnode → outcome A * gmap string fnode) : M A :=
  λ w, let '(o, fs) := f (files w) in (o, set_files fs w).

Definition logger_info (msg : string) : M unit := λ w, (Ok tt, add_log INFO msg w).
Definition logger_error (msg : string) : M unit := λ w, (Ok tt, add_log ERROR msg w).

Definition idle_add (e : ui_event) : M unit := λ w, (Ok tt, add_idle e w).

(** ** The file system calls of the manager *)

Fixpoint last_is_slash (s : string) : bool :=
  match s with
  | EmptyString => false
  | String c EmptyString => bool_decide (String c EmptyString = "/")
  | String _ s' => last_is_slash s'
  end.

(** [os.path.join(a, b)] *)
Definition os_path_join (a b : string) : string :=
  if String.prefix "/" b then b
  else if bool_decide (a = "") || last_is_slash a then a +:+ b
  else a +:+ "/" +:+ b.

(** [os.remove(path)] *)
Definition os_remove (path : string) : M unit :=
  λ w, match files w !! path with
       | Some (File _) => (Ok tt, set_files (delete path (files w)) w)
       | Some Dir => (Raise (OSError "[Errno 21] Is a directory" path), w)
       | None => (Raise (OSError "[Errno 2] No such file or directory" path), w)
       end.

(** [open(path, 'r').read()] *)
Definition read_file (path : string) : M string :=
  λ w, match files w !! path with
       | Some (File text) => (Ok text, w)
       | Some Dir => (Raise (OSError "[Errno 21] Is a directory" path), w)
       | None => (Raise (OSError "[Errno 2] No such file or directory" path), w)
       end.

(** [open(path, 'w').write(text)] *)
Definition write_file (path text : string) : M unit :=
  λ w, match files w !! path with
       | Some Dir => (Raise (OSError "[Errno 21] Is a directory" path), w)
       | _ => (Ok tt, set_files (<[path := File text]> (files w)) w)
       end.

(** ** The calls to NetworkManager *)

(** [NetworkManager.Settings.ListConnections()] *)
Definition ListConnections : M (list connection) :=
  λ w, (Ok (nm_connections w), w).

(** [NetworkManager.NetworkManager.ActiveConnections] *)
Definition ActiveConnections : M (list active_connection) :=
  λ w, (Ok (nm_active w), w).

(** [NetworkManager.Settings.GetConnectionByUuid(uuid)] *)
Definition GetConnectionByUuid (uuid : string) : M connection :=
  λ w, match filter (λ c, conn_uuid (GetSettings c) = uuid) (nm_connections w) with
       | c :: _ => (Ok c, w)
       | [] => (Raise (DBusException "No connection with the UUID was found."), w)
       end.

Definition fresh_path (cs : list connection) : nat :=
  S (foldr Nat.max 0 (obj_path <$> cs)).

(** [NetworkManager.Settings.AddConnection(settings)] *)
Definition AddConnection (s : settings) : M connection :=
  λ w, let w1 := add_call (CallAddConnection s) w in
       match nm_add_error w with
       | Some err => (Raise (DBusException err), w1)
       | None =>
           let c := Connection (fresh_path (nm_connections w)) s None in
           (Ok c, set_connections (nm_connections w ++ [c]) w1)
       end.

(** [conn.Delete()]: the connection object, known by its object path, leaves
    the list of the service. *)
Definition Delete (conn : connection) : M unit :=
  λ w, let w1 := add_call (CallDelete (obj_path conn)) w in
       match delete_error conn with
       | Some err => (Raise (DBusException err), w1)
       | None =>
           (Ok tt, set_connections
                     (filter (λ c, obj_path c ≠ obj_path conn) (nm_connections w))
                     w1)
       end.

(** [NetworkManager.NetworkManager.DeactivateConnection(conn)]: the request
    is sent; the connection goes down later, on the service's side. *)
Definition DeactivateConnection (a : active_connection) : M unit :=
  λ w, let w1 := add_call (CallDeactivateConnection a) w in
       match deactivate_error a with
       | Some err => (Raise (DBusException err), w1)
       | None => (Ok tt, w1)
       end.

(** [settings['vpn']['data'][f]] *)
Definition vpn_data_get (s : settings) (f : string) : M string :=
  match vpn_data s with
  | None => raise (KeyError "vpn")
  | Some d => match d !! f with
              | Some p => ret p
              | None => raise (KeyError f)
              end
  end.

(** [try: body except <catches> as e: handler(e) else: orelse(result)] *)
Definition try_except_else {A B} (body : M A) (catches : exn → bool)
    (handler : exn → M B) (orelse : A → M B) : M B :=
  λ w, match body w with
       | (Ok a, w') => orelse a w'
       | (Raise e, w') => if catches e then handler e w' else (Raise e, w')
       end.

(** [xs[0]] *)
Definition first_item {A} (xs : list A) : M A :=
  match xs with
  | x :: _ => ret x
  | [] => raise (IndexError "list index out of range")
  end.

(** [d[k]] on a dictionary, [KeyError] when the key is missing. *)
Definition dict_item (k : string) (d : dict) : M value :=
  match dict_get k d with
  | Some v => ret v
  | None => raise (KeyError k)
  end.

(** [o.k] on an object, [AttributeError] when it has no such attribute. *)
Definition getattr (o : dict) (k : string) : M value :=
  match dict_get k o with
  | Some v => ret v
  | None => raise (AttributeError ("object has no attribute '" +:+ k +:+ "'"))
  end.

(** ["{}".format(v)]; the text of a container or an object is abbreviated. *)
Definition format_value (v : value) : string :=
  match v with
  | VNone => "None"
  | VBool true => "True"
  | VBool false => "False"
  | VInt n => pretty n
  | VFloat l => l
  | VStr s => s
  | VList _ => "[...]"
  | VDict _ => "{...}"
  | VObject _ => "<object>"
  end.

(** The settings dictionary as a Python value, for [locals()]. *)
Definition settings_value (s : settings) : value :=
  VDict ([("connection",
           VDict [("id", VStr (conn_id s)); ("uuid", VStr (conn_uuid s));
                  ("type", VStr (conn_type s))])]
         ++ match vpn_data s with
            | Some d =>
                [("vpn", VDict [("data",
                    VDict ((λ kv, (kv.1, VStr kv.2)) <$> map_to_list d))])]
            | None => []
            end).

(** [settings['vpn']['data']], [KeyError] when the settings have no such block. *)
Definition vpn_data_dict (s : settings) : M (gmap string string) :=
  match vpn_data s with
  | Some d => ret d
  | None => raise (KeyError "vpn")
  end.

(** [data.update({'cert': cert, 'key': key, 'ca': ca, 'ta': ta})] *)
Definition paths_update (cert key ca ta : string) (d : gmap string string)
    : gmap string string :=
  <["ta" := ta]> (<["ca" := ca]> (<["key" := key]> (<["cert" := cert]> d))).

(** The settings whose [vpn] data dictionary is now [d]. *)
Definition with_vpn_data (s : settings) (d : gmap string string) : settings :=
  Settings (conn_id s) (conn_uuid s) (conn_type s) (Some d).

(** [o[k] = v]. The messages are cut short: Python's go on to name the type
    of the key or of the object. *)
Definition set_item (o : value) (k : string) (v : value) : M value :=
  match o with
  | VDict d => ret (VDict (dict_set k v d))
  | VList _ => raise (TypeError "list indices must be integers")
  | _ => raise (TypeError "object does not support item assignment")
  end.

(** Binding the positional arguments of a call to the parameters of a
    function that has neither defaults nor a starred parameter: the numbers
    must agree, else the call raises [TypeError] and the body does not start.
    The message stops after the count; Python goes on to name the missing
    parameters. *)
Definition bind_arguments (fname : string) (params : list string)
    (args : list value) : M dict :=
  if decide (length args = length params) then ret (zip params args)
  else if decide (length args < length params) then
    raise (TypeError (fname +:+ "() missing " +:+
                      pretty (length params - length args) +:+
                      " required positional arguments"))
  else
    raise (TypeError (fname +:+ "() takes " +:+ pretty (length params) +:+
                      " positional arguments but " +:+ pretty (length args) +:+
                      " were given")).

(** The thirteen parameters of [store_provider]. *)
Definition store_provider_params : list string :=
  ["api_base_uri"; "profile_id"; "display_name"; "token"; "connection_type";
   "authorization_type"; "profile_display_name"; "two_factor"; "cert"; "key";
   "config"; "icon_data"; "instance_base_uri"].

(** The dictionary that [list_providers] yields for a connection whose
    metadata cannot be loaded. *)
Definition placeholder (conn : settings) : value :=
  VDict [("uuid", VStr (conn_uuid conn)); ("display_name", VStr (conn_id conn));
         ("icon_data", VNone); ("connection_type", VStr "unknown")].

(** The first active connection with the given uuid, as the loop of
    [is_provider_connected] meets it. *)
Definition first_active (uuid : string) (actives : list active_connection)
    : option active_connection :=
  head (filter (λ a, Uuid a = uuid) actives).

(** ** The manager *)

Section manager.

(** What the manager imports from the rest of the package and from the
    standard library. [config_path] and [stored_metadata] are the constants
    of [eduvpn.config]; [json_loads] gives [None] on a text that is not
    JSON. [json_dump v] is what [json.dump(v, f)] does: the text it writes
    to [f], and the exception it then raises, if any ([TypeError] on a value
    that cannot be serialised; the text is then what was written before the
    value was met). The helpers of [eduvpn.io] only touch the file system. *)
Variable config_path : string.
Variable stored_metadata : list string.
Variable json_loads : string → option value.
Variable json_dump : value → string * option exn.
Variable make_unique_id : world → string.
Variable format_like_ovpn : value → value → value → outcome string.
Variable parse_ovpn : string → outcome dict.
Variable ovpn_to_nm : dict → string → value → outcome settings.
Variable write_cert :
  value → string → string → gmap string fnode → outcome string * gmap string fnode.
Variable mkdir_p : string → gmap string fnode → outcome unit * gmap string fnode.
Variable store_metadata :
  string → dict → gmap string fnode → outcome unit * gmap string fnode.

(** [json.load(open(path, 'r'))] *)
Definition json_load (path : string) : M value :=
  text <~ read_file path ;;
  match json_loads text with
  | Some v => ret v
  | None => raise (ValueError "No JSON object could be decoded")
  end.

Definition insert_config (s : settings) : M connection :=
  let name := conn_id s in
  logger_info ("generating or updating OpenVPN configuration with name " +:+ name) ;;;
  connection <~ AddConnection s ;;
  ret connection.

(** The body of the loop of [list_providers], for one connection. *)
Definition list_providers_entry (conn : settings) : M value :=
  try_except_else
    (json_load (os_path_join config_path (conn_uuid conn +:+ ".json")))
    any_Exception
    (λ e, logger_error ("can't load metadata file: " +:+ exn_str e) ;;;
          ret (placeholder conn))
    (λ metadata, ret metadata).

Fixpoint list_providers_loop (vpn_connections : list settings) : M (list value) :=
  match vpn_connections with
  | [] => ret []
  | conn :: rest =>
      entry <~ list_providers_entry conn ;;
      entries <~ list_providers_loop rest ;;
      ret (entry :: entries)
  end.

(** [list_providers()], the generator run to its end. *)
Definition list_providers : M (list value) :=
  all_ <~ ListConnections ;;
  let vpn_connections :=
    GetSettings <$> filter (λ c, conn_type (GetSettings c) = "vpn") all_ in
  logger_info ("There are " +:+ pretty (length vpn_connections) +:+
               " VPN connections in networkmanager") ;;;
  list_providers_loop vpn_connections.

Definition store_provider_body (l : dict) : M string :=
  display_name <~ dict_item "display_name" l ;;
  cert <~ dict_item "cert" l ;;
  key <~ dict_item "key" l ;;
  config <~ dict_item "config" l ;;
  logger_info ("storing profile with name " +:+ format_value display_name +:+
               " using NetworkManager") ;;;
  uuid <~ (λ w, (Ok (make_unique_id w), w)) ;;
  ovpn_text <~ lift_outcome (format_like_ovpn config cert key) ;;
  config_dict <~ lift_outcome (parse_ovpn ovpn_text) ;;
  cert_path <~ lift_fs (write_cert cert "cert" uuid) ;;
  key_path <~ lift_fs (write_cert key "key" uuid) ;;
  ca <~ dict_item "ca" config_dict ;;
  let config_dict := dict_remove "ca" config_dict in
  ca_path <~ lift_fs (write_cert ca "ca" uuid) ;;
  ta <~ dict_item "tls-auth" config_dict ;;
  let config_dict := dict_remove "tls-auth" config_dict in
  ta_path <~ lift_fs (write_cert ta "ta" uuid) ;;
  nm_config <~ lift_outcome (ovpn_to_nm config_dict uuid display_name) ;;
  lift_fs (mkdir_p config_path) ;;;
  let l := l ++ [("uuid", VStr uuid); ("ovpn_text", VStr ovpn_text);
                 ("config_dict", VDict config_dict);
                 ("cert_path", VStr cert_path); ("key_path", VStr key_path);
                 ("ca_path", VStr ca_path); ("ta_path", VStr ta_path);
                 ("nm_config", settings_value nm_config)] in
  store <~ (fix comprehension (names : list string) (store : dict) : M dict :=
              match names with
              | [] => ret store
              | i :: names' =>
                  v <~ dict_item i l ;;
                  comprehension names' (dict_set i v store)
              end) stored_metadata [] ;;
  lift_fs (store_metadata uuid store) ;;;
  data <~ vpn_data_dict nm_config ;;
  let nm_config :=
    with_vpn_data nm_config (paths_update cert_path key_path ca_path ta_path data) in
  insert_config nm_config ;;;
  ret uuid.

(** [store_provider], called with the list of its positional arguments. *)
Definition store_provider (args : list value) : M string :=
  l <~ bind_arguments "store_provider" store_provider_params args ;;
  store_provider_body l.

(** The body of the loop of [delete_provider], for one kind of file. *)
Definition remove_certificate (conn : connection) (f : string) : M unit :=
  path <~ vpn_data_get (GetSettings conn) f ;;
  logger_info ("removing certificate " +:+ path) ;;;
  try_except (os_remove path) is_OSError
    (λ e, logger_error ("can't remove certificate " +:+ path +:+ ": " +:+ exn_str e)).

Definition delete_provider (uuid : string) : M unit :=
  logger_info ("deleting profile with uuid " +:+ uuid +:+ " using NetworkManager") ;;;
  all_connections <~ ListConnections ;;
  let conns := filter (λ c, conn_uuid (GetSettings c) = uuid) all_connections in
  if decide (length conns ≠ 1) then
    raise (EduvpnException (pretty (length conns) +:+ " connections matching uid " +:+ uuid))
  else
    conn <~ first_item conns ;;
    logger_info ("removing certificates for " +:+ uuid) ;;;
    for_each ["ca"; "cert"; "key"; "ta"] (remove_certificate conn) ;;;
    try_except (Delete conn) any_Exception
      (λ e, logger_error ("can't remove networkmanager connection: " +:+ exn_str e) ;;;
            raise e) ;;;
    let metadata := os_path_join config_path (uuid +:+ ".json") in
    logger_info ("deleting metadata file " +:+ metadata) ;;;
    try_except (os_remove metadata) any_Exception
      (λ e, logger_error ("can't remove ovpn file: " +:+ exn_str e)).

Definition list_active : M (list active_connection) :=
  logger_info "getting list of active connections" ;;;
  ActiveConnections.

Definition disconnect_provider (uuid : string) : M unit :=
  logger_info ("Disconnecting profile with uuid " +:+ uuid +:+ " using NetworkManager") ;;;
  actives <~ ActiveConnections ;;
  let conns := filter (λ i, Uuid i = uuid) actives in
  if decide (length conns = 0) then
    raise (EduvpnException ("no active connection found with uuid " +:+ uuid))
  else
    for_each conns DeactivateConnection.

(** The loop of [is_provider_connected]; falling off its end returns [None]. *)
Fixpoint is_provider_connected_loop (uuid : string)
    (actives : list active_connection) : M (option (string * string)) :=
  match actives with
  | [] => ret None
  | active :: rest =>
      if decide (uuid = Uuid active) then
        if decide (State active = 2%Z) then
          ip4 <~ first_item (AddressData (Ip4Config active)) ;;
          ip6 <~ first_item (AddressData (Ip6Config active)) ;;
          ret (Some (address ip4, address ip6))
        else
          ret (Some ("", ""))
      else
        is_provider_connected_loop uuid rest
  end.

Definition is_provider_connected (uuid : string) : M (option (string * string)) :=
  actives <~ list_active ;;
  is_provider_connected_loop uuid actives.

Definition update_config_provider (uuid display_name config : string) : M unit :=
  logger_info ("updating config for " +:+ display_name +:+ " (" +:+ uuid +:+ ")") ;;;
  config_dict <~ lift_outcome (parse_ovpn config) ;;
  ca <~ dict_item "ca" config_dict ;;
  let config_dict := dict_remove "ca" config_dict in
  ca_path <~ lift_fs (write_cert ca "ca" uuid) ;;
  ta <~ dict_item "tls-auth" config_dict ;;
  let config_dict := dict_remove "tls-auth" config_dict in
  ta_path <~ lift_fs (write_cert ta "ta" uuid) ;;
  nm_config <~ lift_outcome (ovpn_to_nm config_dict uuid (VStr display_name)) ;;
  old_conn <~ GetConnectionByUuid uuid ;;
  let old_settings := GetSettings old_conn in
  data <~ vpn_data_dict nm_config ;;
  cert <~ vpn_data_get old_settings "cert" ;;
  key <~ vpn_data_get old_settings "key" ;;
  let nm_config := with_vpn_data nm_config (paths_update cert key ca_path ta_path data) in
  Delete old_conn ;;;
  insert_config nm_config ;;;
  ret tt.

(** [with open(path, 'w') as f: json.dump(metadata, f)]: opening the file
    empties it; [json.dump] then writes its text, and what it wrote stays in
    the file when it raises. *)
Definition json_dump_file (metadata : value) (path : string) : M unit :=
  write_file path "" ;;;
  write_file path (json_dump metadata).1 ;;;
  match (json_dump metadata).2 with
  | Some e => raise e
  | None => ret tt
  end.

Definition update_token (uuid : string) (token : value) : M unit :=
  logger_info ("writing new token information for " +:+ uuid) ;;;
  let path := os_path_join config_path (uuid +:+ ".json") in
  metadata <~ json_load path ;;
  metadata <~ set_item metadata "token" token ;;
  json_dump_file metadata path.

(** *** The background step of the finalize flow *)

(** The two calls to the remote API, [eduvpn.remote]. *)
Variable create_keypair : value → value → outcome (value * value).
Variable get_profile_config : value → value → value → outcome value.

(** The body of the first [try] of [_background]: the key pair and the
    configuration are fetched and set on [meta], which is given back. *)
Definition _background_fetch (meta : dict) (oauth : value) : M dict :=
  api_base_uri <~ getattr meta "api_base_uri" ;;
  pair <~ lift_outcome (create_keypair oauth api_base_uri) ;;
  let meta := dict_set "cert" pair.1 meta in
  let meta := dict_set "key" pair.2 meta in
  api_base_uri <~ getattr meta "api_base_uri" ;;
  profile_id <~ getattr meta "profile_id" ;;
  config <~ lift_outcome (get_profile_config oauth api_base_uri profile_id) ;;
  ret (dict_set "config" config meta).

Definition _background (meta : dict) (oauth : value) : M unit :=
  try_except_else
    (_background_fetch meta oauth)
    any_Exception
    (λ e, idle_add (ErrorHelper "can't finalize configuration"
                      (exn_name e +:+ ": " +:+ exn_str e)) ;;;
          idle_add DialogHide ;;;
          raise e)
    (λ meta,
       try_except_else
         (store_provider [VObject meta] ;;;
          display_name <~ getattr meta "display_name" ;;
          idle_add (Notify "eduVPN provider added"
                      ("added provider '" +:+ format_value display_name +:+ "'")))
         any_Exception
         (λ e, idle_add (ErrorHelper "can't store configuration"
                           (exn_name e +:+ " " +:+ exn_str e)) ;;;
               idle_add DialogHide ;;;
               raise e)
         (λ _, idle_add DialogHide ;;;
               idle_add UpdateProviders)).

End manager.

(** ** The rest of the manager *)

Section manager_rest.

Variable write_cert :
  value → string → string → gmap string fnode → outcome string * gmap string fnode.

(** [NetworkManager.NetworkManager.ActivateConnection(connection, device,
    specific_object)]: what the service does with the request, and the active
    connection it hands back, are the service's. *)
Variable ActivateConnection : connection → string → string → M active_connection.

Definition connect_provider (uuid : string) : M active_connection :=
  logger_info ("connecting profile with uuid " +:+ uuid +:+ " using NetworkManager") ;;;
  conn <~ GetConnectionByUuid uuid ;;
  ActivateConnection conn "/" "/".

Definition update_keys_provider (uuid : string) (cert key : value) : M unit :=
  logger_info ("updating key pare for uuid " +:+ uuid) ;;;
  lift_fs (write_cert cert "cert" uuid) ;;;
  lift_fs (write_cert key "key" uuid) ;;;
  ret tt.

End manager_rest.

(** A callback registered on a signal of a connection object. The callback
    is known by a number. *)
Record signal_handler := SignalHandler {
  handler_path : nat;
  handler_signal : string;
  handler_callback : nat
}.

(** [conn.connect_to_signal(signal, callback)] *)
Definition connect_to_signal (conn : connection) (signal : string) (callback : nat)
    (handlers : list signal_handler) : list signal_handler :=
  handlers ++ [SignalHandler (obj_path conn) signal callback].

(** The loop of [vpn_monitor] over the connections of the service. *)
Fixpoint vpn_monitor_loop (callback : nat) (connections : list connection)
    (handlers : list signal_handler) : list signal_handler :=
  match connections with
  | [] => handlers
  | conn :: rest =>
      vpn_monitor_loop callback rest
        (if decide (conn_type (GetSettings conn) = "vpn")
         then connect_to_signal conn "Updated" callback handlers
         else handlers)
  end.

(** [vpn_monitor(callback)]: the handlers registered so far are threaded
    beside the world, which the function only reads. *)
Definition vpn_monitor (callback : nat) (w : world) (handlers : list signal_handler)
    : list signal_handler :=
  vpn_monitor_loop callback (nm_connections w) handlers.

(** * Properties *)

(** The connections of the service whose uuid is [uuid], as [delete_provider]
    selects them. *)
Definition matching (uuid : string) (w : world) : list connection :=
  filter (λ c, conn_uuid (GetSettings c) = uuid) (nm_connections w).

(** [os.remove] applied to a file system: a regular file goes away, anything
    else is left as it is (and the call raises). *)
Definition rm (p : string) (fs : gmap string fnode) : gmap string fnode :=
  if is_file (fs !! p) then delete p fs else fs.

(** [fs'] is [fs] without the regular files named in [ps]: those are gone,
    every other path holds what it held. *)
Definition files_removed (ps : list string) (fs fs' : gmap string fnode) : Prop :=
  ∀ q, fs' !! q = if decide (q ∈ ps ∧ is_file (fs !! q)) then None else fs !! q.

(** The world after [try: os.remove(p) except ..: logger.error(msg(e))]. *)
Definition after_remove (p : string) (msg : exn → string) (w : world) : world :=
  match files w !! p with
  | Some (File _) => set_files (delete p (files w)) w
  | Some Dir => add_log ERROR (msg (OSError "[Errno 21] Is a directory" p)) w
  | None => add_log ERROR (msg (OSError "[Errno 2] No such file or directory" p)) w
  end.

Definition cert_msg (p : string) (e : exn) : string :=
  "can't remove certificate " +:+ p +:+ ": " +:+ exn_str e.

Definition ovpn_msg (e : exn) : string :=
  "can't remove ovpn file: " +:+ exn_str e.

(** The world after one round of the loop of [delete_provider], for the
    credential file at [p]. *)
Definition cert_step (p : string) (w : world) : world :=
  after_remove p (cert_msg p) (add_log INFO ("removing certificate " +:+ p) w).

(** The connections of a list that a loop of [DeactivateConnection] requests:
    all of them up to the first one the service refuses, that one included. *)
Fixpoint until_refusal (conns : list active_connection) : list active_connection :=
  match conns with
  | [] => []
  | a :: rest =>
      a :: match deactivate_error a with
           | Some _ => []
           | None => until_refusal rest
           end
  end.

(** What [is_provider_connected] does with the connection it matched. *)
Definition matched_status (active : active_connection) : M (option (string * string)) :=
  if decide (State active = 2%Z) then
    ip4 <~ first_item (AddressData (Ip4Config active)) ;;
    ip6 <~ first_item (AddressData (Ip6Config active)) ;;
    ret (Some (address ip4, address ip6))
  else
    ret (Some ("", "")).

(** A computation that leaves the list of active connections alone, whatever
    its outcome. *)
Definition keeps_active {A} (m : M A) : Prop :=
  ∀ w r w', m w = (r, w') → nm_active w' = nm_active w.

(** The metadata record of [uuid] as [json.load] gives it, when the file is
    there and holds JSON. *)
Definition load_metadata (config_path : string) (json_loads : string → option value)
    (fs : gmap string fnode) (uuid : string) : option value :=
  match fs !! os_path_join config_path (uuid +:+ ".json") with
  | Some (File text) => json_loads text
  | _ => None
  end.

(** The entry of a listing for one VPN connection: its metadata record, or
    the placeholder when the record does not load. *)
Definition list_entry (config_path : string) (json_loads : string → option value)
    (fs : gmap string fnode) (conn : settings) : value :=
  default (placeholder conn) (load_metadata config_path json_loads fs (conn_uuid conn)).

(** The settings of the VPN connections of the service, in its order. *)
Definition vpn_settings (w : world) : list settings :=
  GetSettings <$> filter (λ c, conn_type (GetSettings c) = "vpn") (nm_connections w).

(** The entries of a dictionary other than those under the key [k]. *)
Definition other_fields (k : string) (d : list (string * value))
    : list (string * value) :=
  filter (λ kv, kv.1 ≠ k) d.

(** What [update_config_provider] has done to the service when it ends:
    nothing; or sent the deletion of [old], refused; or sent the deletion,
    accepted, and then the insertion of [s], refused or accepted. *)
Definition update_requests (uuid : string) (w : world) (r : outcome unit) (w' : world)
    : Prop :=
  nm_active w' = nm_active w
  ∧ (((∃ e, r = Raise e)
      ∧ nm_calls w' = nm_calls w
      ∧ nm_connections w' = nm_connections w)
     ∨ ∃ old,
         head (matching uuid w) = Some old
         ∧ (((∃ e, r = Raise e)
             ∧ nm_calls w' = nm_calls w ++ [CallDelete (obj_path old)]
             ∧ nm_connections w' = nm_connections w)
            ∨ ∃ s,
                nm_calls w'
                = nm_calls w ++ [CallDelete (obj_path old); CallAddConnection s]
                ∧ (((∃ e, r = Raise e)
                    ∧ nm_connections w'
                      = filter (λ c, obj_path c ≠ obj_path old) (nm_connections w))
                   ∨ (r = Ok tt
                      ∧ GetSettings <$> nm_connections w'
                        = (GetSettings <$> filter (λ c, obj_path c ≠ obj_path old)
                                             (nm_connections w)) ++ [s])))).

(** What [store_provider] has done to the service when it ends: nothing; or
    sent the insertion of [s], which carries the four credential paths,
    refused or accepted. *)
Definition store_requests (w : world) (r : outcome string) (w' : world) : Prop :=
  nm_active w' = nm_active w
  ∧ (((∃ e, r = Raise e)
      ∧ nm_calls w' = nm_calls w
      ∧ nm_connections w' = nm_connections w)
     ∨ ∃ s d,
         nm_calls w' = nm_calls w ++ [CallAddConnection s]
         ∧ vpn_data s = Some d
         ∧ is_Some (d !! "cert") ∧ is_Some (d !! "key")
         ∧ is_Some (d !! "ca") ∧ is_Some (d !! "ta")
         ∧ (((∃ err, r = Raise (DBusException err))
             ∧ nm_connections w' = nm_connections w)
            ∨ ((∃ uuid, r = Ok uuid)
               ∧ GetSettings <$> nm_connections w'
                 = (GetSettings <$> nm_connections w) ++ [s]))).

(** ** A sample installation

    One VPN profile, ["u1"], next to a wireless connection; its [ca] and [ta]
    files are in place, its [cert] file is missing and a directory sits where
    its [key] file should be. Used to run the functions and to instantiate
    the theorems below. *)

Definition demo_config_path : string := "/home/user/.config/eduvpn".

Definition demo_data : gmap string string :=
  <["ca" := "/certs/ca-u1"]> (<["cert" := "/certs/cert-u1"]>
  (<["key" := "/certs/key-u1"]> (<["ta" := "/certs/ta-u1"]>
  (<["remote" := "vpn.example.org"]> ∅)))).

Definition demo_vpn : connection :=
  Connection 1 (Settings "Demo VPN" "u1" "vpn" (Some demo_data)) None.

Definition demo_wifi : connection :=
  Connection 2 (Settings "Home" "u2" "802-11-wireless" None) None.

(** A VPN profile that the service refuses to delete. *)
Definition demo_locked : connection :=
  Connection 3 (Settings "Locked VPN" "u5" "vpn" (Some demo_data))
    (Some "org.freedesktop.NetworkManager.Settings.PermissionDenied").

Definition demo_active_u1 : active_connection :=
  ActiveConnection "u1" 2 (IpConfig [AddressEntry "10.0.0.5" 24])
    (IpConfig [AddressEntry "fd00::5" 64]) None.

(** Connected, with no IPv6 address. *)
Definition demo_active_u3 : active_connection :=
  ActiveConnection "u3" 2 (IpConfig [AddressEntry "10.0.0.7" 24]) (IpConfig []) None.

(** Still activating. *)
Definition demo_active_u4 : active_connection :=
  ActiveConnection "u4" 1 (IpConfig []) (IpConfig []) None.

Definition dq : string := String (Ascii.ascii_of_nat 34) EmptyString.

Definition quoted (s : string) : string := dq +:+ s +:+ dq.

(** A serialiser for the sample: JSON text of a value whose strings need no
    escaping. *)
Fixpoint demo_json_dumps (v : value) : string :=
  match v with
  | VNone => "null"
  | VBool true => "true"
  | VBool false => "false"
  | VInt n => pretty n
  | VFloat l => l
  | VStr s => quoted s
  | VList items => "[" +:+ String.concat ", " (map demo_json_dumps items) +:+ "]"
  | VDict entries | VObject entries =>
      "{" +:+ String.concat ", "
                (map (λ kv, quoted kv.1 +:+ ": " +:+ demo_json_dumps kv.2) entries)
          +:+ "}"
  end.

Definition demo_record : dict :=
  [("display_name", VStr "Demo VPN");
   ("token", VDict [("access_token", VStr "old"); ("expires_in", VInt 3600)]);
   ("profile_id", VStr "internet");
   ("two_factor", VBool false)].

(** The token of a refresh, and the record of ["u1"] once it is set. *)
Definition demo_token : value := VDict [("access_token", VStr "new")].

Definition demo_record_new : dict := dict_set "token" demo_token demo_record.

(** A parser for the sample: it knows the texts of the values below and
    takes every other text for malformed. *)
Definition demo_json_loads (text : string) : option value :=
  List.find (λ v, bool_decide (demo_json_dumps v = text))
    [VDict demo_record; VDict demo_record_new; VDict []; VList []; VNone].

(** [json.dump] for the sample, chunk by chunk: the text written, and whether
    the value was serialised to its end. An instance of a class stops it. *)
Fixpoint demo_json_chunks (v : value) : string * bool :=
  match v with
  | VObject _ => ("", false)
  | VList items =>
      let '(text, ended) :=
        (fix go (items : list value) (sep : string) : string * bool :=
           match items with
           | [] => ("", true)
           | x :: rest =>
               let '(t, ok) := demo_json_chunks x in
               if ok then let '(t', ok') := go rest ", " in (sep +:+ t +:+ t', ok')
               else (sep +:+ t, false)
           end) items "" in
      ("[" +:+ text +:+ (if ended then "]" else ""), ended)
  | VDict entries =>
      let '(text, ended) :=
        (fix go (entries : list (string * value)) (sep : string) : string * bool :=
           match entries with
           | [] => ("", true)
           | (k, x) :: rest =>
               let '(t, ok) := demo_json_chunks x in
               let t := sep +:+ quoted k +:+ ": " +:+ t in
               if ok then let '(t', ok') := go rest ", " in (t +:+ t', ok')
               else (t, false)
           end) entries "" in
      ("{" +:+ text +:+ (if ended then "}" else ""), ended)
  | _ => (demo_json_dumps v, true)
  end.

Definition demo_json_dump (v : value) : string * option exn :=
  let '(text, ended) := demo_json_chunks v in
  (text, if ended then None else Some (TypeError "Object is not JSON serializable")).

(** A token that [json.dump] cannot serialise. *)
Definition demo_token_object : value := VObject [("access_token", VStr "new")].

(** The text of the metadata file of ["u1"]. *)
Definition demo_text : string :=
  Eval vm_compute in demo_json_dumps (VDict demo_record).

Definition demo_files : gmap string fnode :=
  <["/certs/ca-u1" := File "CA"]> (<["/certs/ta-u1" := File "TA"]>
  (<["/certs/key-u1" := Dir]>
  (<["/home/user/.config/eduvpn/u1.json" := File demo_text]>
  (<["/home/user/.config/eduvpn/u5.json" := File "{not json"]>
  (<["/home/user/.config/eduvpn/u6.json" := File "[]"]> ∅))))).

Definition demo_world : world :=
  World [demo_vpn; demo_wifi; demo_locked]
        [demo_active_u1; demo_active_u3; demo_active_u4]
        None [] demo_files [] [].

(** The helpers of the package, for the sample: the credential file of a
    profile is [/certs/<kind>-<uuid>]; a configuration is its [ca] block
    followed by a fixed [tls-auth] block and remote. *)
Definition demo_write_cert (content : value) (kind uuid : string)
    (fs : gmap string fnode) : outcome string * gmap string fnode :=
  let path := "/certs/" +:+ kind +:+ "-" +:+ uuid in
  (Ok path, <[path := File (format_value content)]> fs).

Definition demo_parse_ovpn (config : string) : outcome dict :=
  if decide (config = "") then Raise (ValueError "empty configuration")
  else Ok [("remote", VStr "vpn.example.org"); ("ca", VStr config);
           ("tls-auth", VStr "TA2")].

Definition demo_ovpn_to_nm (config_dict : dict) (uuid : string) (display_name : value)
    : outcome settings :=
  Ok (Settings (format_value display_name) uuid "vpn"
        (Some (list_to_map
                 (omap (λ kv, match kv.2 with
                              | VStr s => Some (kv.1, s)
                              | _ => None
                              end) config_dict)))).

Definition demo_stored_metadata : list string :=
  ["uuid"; "display_name"; "api_base_uri"; "instance_base_uri"; "profile_id";
   "connection_type"; "authorization_type"; "two_factor"; "token"].

Definition demo_make_unique_id (w : world) : string := "u7".

Definition demo_format_like_ovpn (config cert key : value) : outcome string :=
  Ok (format_value config).

Definition demo_mkdir_p (path : string) (fs : gmap string fnode)
    : outcome unit * gmap string fnode :=
  (Ok tt, fs).

Definition demo_store_metadata (uuid : string) (store : dict) (fs : gmap string fnode)
    : outcome unit * gmap string fnode :=
  (Ok tt, <[os_path_join demo_config_path (uuid +:+ ".json")
            := File (demo_json_dumps (VDict store))]> fs).

Definition demo_create_keypair (oauth api_base_uri : value) : outcome (value * value) :=
  Ok (VStr "CERT", VStr "KEY").

Definition demo_get_profile_config (oauth api_base_uri profile_id : value)
    : outcome value :=
  Ok (VStr "NEWCA").

(** The metadata object at the end of the add-profile flow. *)
Definition demo_meta : dict :=
  [("api_base_uri", VStr "https://vpn.example.org/api");
   ("profile_id", VStr "internet");
   ("display_name", VStr "Demo VPN");
   ("token", VDict [("access_token", VStr "old")]);
   ("connection_type", VStr "Secure Internet");
   ("authorization_type", VStr "local");
   ("profile_display_name", VStr "Internet");
   ("two_factor", VBool false);
   ("icon_data", VNone);
   ("instance_base_uri", VStr "https://vpn.example.org")].

(** The thirteen arguments of [store_provider], taken from [demo_meta]. *)
Definition demo_store_args : list value :=
  [VStr "https://vpn.example.org/api"; VStr "internet"; VStr "Demo VPN";
   VDict [("access_token", VStr "old")]; VStr "Secure Internet"; VStr "local";
   VStr "Internet"; VBool false; VStr "CERT"; VStr "KEY"; VStr "NEWCA"; VNone;
   VStr "https://vpn.example.org"].

(** The service of the sample answers an activation request with a
    connection that is activating. *)
Definition demo_ActivateConnection (conn : connection) (device specific_object : string)
    : M active_connection :=
  ret (ActiveConnection (conn_uuid (GetSettings conn)) 1 (IpConfig []) (IpConfig []) None).

(** The sample installation when the service refuses every insertion. *)
Definition demo_world_full : world :=
  World [demo_vpn; demo_wifi; demo_locked]
        [demo_active_u1; demo_active_u3; demo_active_u4]
        (Some "org.freedesktop.NetworkManager.Settings.AddFailed")
        [] demo_files [] [].

(** A VPN profile whose record carries the [ca] path only, and an
    installation that has it. *)
Definition demo_partial : connection :=
  Connection 4 (Settings "Partial VPN" "u8" "vpn"
                  (Some (<["ca" := "/certs/ca-u1"]> ∅))) None.

Definition demo_world_partial : world :=
  World [demo_partial; demo_wifi] [] None [] demo_files [] [].

(** [Q] holds of the outcome of [m] run from [w] and of the world it leaves. *)
Definition post {A} (m : M A) (w : world) (Q : outcome A → world → Prop) : Prop :=
  Q (m w).1 (m w).2.

Lemma rm_lookup p fs q :
  rm p fs !! q = if decide (q = p ∧ is_file (fs !! q)) then None else fs !! q.
Proof.
  unfold rm. destruct (decide (q = p)) as [->|Hne].
  - destruct (fs !! p) as [[]|] eqn:E; cbn.
    + rewrite lookup_delete_eq. by rewrite decide_True.
    + rewrite decide_False; [done|]. intros [_ []].
    + rewrite decide_False; [done|]. intros [_ []].
  - rewrite decide_False by tauto.
    destruct (is_file (fs !! p)); [by rewrite lookup_delete_ne|done].
Qed.

Lemma files_removed_nil fs : files_removed [] fs fs.
Proof.
  intros q. rewrite decide_False; [done|]. intros [H _]. by apply not_elem_of_nil in H.
Qed.

Lemma files_removed_snoc ps p fs fs' :
  files_removed ps fs fs' → files_removed (ps ++ [p]) fs (rm p fs').
Proof.
  intros H q. rewrite rm_lookup, !H.
  destruct (decide (q ∈ ps ∧ is_file (fs !! q))) as [[Hin Hf]|Hn].
  - rewrite (decide_True (P := q ∈ ps ++ [p] ∧ _)) by (split; [apply elem_of_app; by left|done]).
    by destruct (decide _).
  - destruct (decide (q = p)) as [->|Hne].
    + destruct (decide (p = p ∧ is_file (fs !! p))) as [[_ Hf]|Hf].
      * rewrite decide_True; [done|]. split; [|done].
        apply elem_of_app. right. by apply list_elem_of_singleton.
      * rewrite decide_False; [done|]. intros [_ Hf']. tauto.
    + rewrite decide_False by tauto. rewrite decide_False; [done|].
      intros [Hin Hf]. apply Hn. split; [|done].
      apply elem_of_app in Hin as [Hin|Hin]; [done|].
      by apply list_elem_of_singleton in Hin.
Qed.

Lemma after_remove_files p msg w : files (after_remove p msg w) = rm p (files w).
Proof. unfold after_remove, rm. by destruct (files w !! p) as [[]|]. Qed.

Lemma after_remove_service p msg w :
  nm_connections (after_remove p msg w) = nm_connections w
  ∧ nm_active (after_remove p msg w) = nm_active w
  ∧ nm_calls (after_remove p msg w) = nm_calls w.
Proof. unfold after_remove. by destruct (files w !! p) as [[]|]. Qed.

Lemma after_remove_log p msg w :
  ∃ l, log (after_remove p msg w) = log w ++ l
       ∧ (is_file (files w !! p) = false →
          ∃ e, is_OSError e = true ∧ l = [(ERROR, msg e)]).
Proof.
  unfold after_remove. destruct (files w !! p) as [[]|]; cbn.
  - exists []. by rewrite app_nil_r.
  - eexists. split; [done|]. intros _. by eexists (OSError _ _).
  - eexists. split; [done|]. intros _. by eexists (OSError _ _).
Qed.

Lemma try_os_remove_run p catches msg w :
  (∀ m f, catches (OSError m f) = true) →
  try_except (os_remove p) catches (λ e, logger_error (msg e)) w
  = (Ok tt, after_remove p msg w).
Proof.
  intros Hc. unfold try_except, os_remove, after_remove, logger_error.
  destruct (files w !! p) as [[]|]; by rewrite ?Hc.
Qed.

Lemma rm_keeps_missing p fs q :
  is_file (fs !! q) = false → is_file (rm p fs !! q) = false.
Proof.
  intros H. rewrite rm_lookup. by destruct (decide _).
Qed.

Lemma cert_step_spec p w :
  files (cert_step p w) = rm p (files w)
  ∧ nm_connections (cert_step p w) = nm_connections w
  ∧ nm_active (cert_step p w) = nm_active w
  ∧ nm_calls (cert_step p w) = nm_calls w
  ∧ (∀ x, x ∈ log w → x ∈ log (cert_step p w))
  ∧ (is_file (files w !! p) = false →
     ∃ e, is_OSError e = true ∧ (ERROR, cert_msg p e) ∈ log (cert_step p w)).
Proof.
  unfold cert_step.
  set (w0 := add_log INFO ("removing certificate " +:+ p) w).
  destruct (after_remove_service p (cert_msg p) w0) as (Hc & Ha & Hk).
  destruct (after_remove_log p (cert_msg p) w0) as (l & Hl & He).
  rewrite after_remove_files, Hc, Ha, Hk, Hl. repeat split; try done.
  - intros x Hx. cbn. rewrite !elem_of_app. by do 2 left.
  - intros Hf. destruct (He Hf) as (e & Hos & ->).
    exists e. split; [done|]. apply elem_of_app. right. by apply list_elem_of_singleton.
Qed.

Lemma remove_certificate_run conn f d p w :
  vpn_data (GetSettings conn) = Some d →
  d !! f = Some p →
  remove_certificate conn f w = (Ok tt, cert_step p w).
Proof.
  intros Hd Hp. unfold remove_certificate, vpn_data_get, bind. rewrite Hd, Hp.
  cbn [ret logger_info]. by rewrite try_os_remove_run.
Qed.

Section delete_properties.

Variable config_path : string.

(** C1. [delete_provider] counts the connections whose uuid is the one
    given; when that count is not one it raises [EduvpnException] (the
    spec's AmbiguousOrMissing) with the count in its message, and it has
    changed nothing by then: the files (credentials and metadata), the
    connections of the service and the requests sent to it are as they
    were. Only a line of the log was added. *)
Theorem delete_provider_count_not_one (uuid : string) (w : world) :
  length (matching uuid w) ≠ 1 →
  ∃ w',
    delete_provider config_path uuid w
    = (Raise (EduvpnException (pretty (length (matching uuid w)) +:+
                               " connections matching uid " +:+ uuid)), w')
    ∧ files w' = files w
    ∧ nm_connections w' = nm_connections w
    ∧ nm_active w' = nm_active w
    ∧ nm_calls w' = nm_calls w.
Proof.
  intros Hn. eexists. split.
  - unfold delete_provider, bind, logger_info, ListConnections.
    cbn [nm_connections add_log]. fold (matching uuid w).
    destruct (decide (length (matching uuid w) ≠ 1)) as [_|H]; [|tauto].
    reflexivity.
  - done.
Qed.

(** The run of [delete_provider] on exactly one matching connection that
    carries its four credential paths, step by step. *)
Lemma delete_provider_run uuid w conn d ca cert key ta :
  matching uuid w = [conn] →
  vpn_data (GetSettings conn) = Some d →
  d !! "ca" = Some ca → d !! "cert" = Some cert →
  d !! "key" = Some key → d !! "ta" = Some ta →
  let w1 := add_log INFO ("removing certificates for " +:+ uuid)
              (add_log INFO ("deleting profile with uuid " +:+ uuid +:+
                             " using NetworkManager") w) in
  let w2 := cert_step ta (cert_step key (cert_step cert (cert_step ca w1))) in
  let w3 := add_call (CallDelete (obj_path conn)) w2 in
  let metadata := os_path_join config_path (uuid +:+ ".json") in
  delete_provider config_path uuid w =
  match delete_error conn with
  | Some err =>
      (Raise (DBusException err),
       add_log ERROR ("can't remove networkmanager connection: " +:+ err) w3)
  | None =>
      (Ok tt,
       after_remove metadata ovpn_msg
         (add_log INFO ("deleting metadata file " +:+ metadata)
            (set_connections
               (filter (λ c, obj_path c ≠ obj_path conn) (nm_connections w2)) w3)))
  end.
Proof.
  intros Hm Hd Hca Hcert Hkey Hta w1 w2 w3 metadata.
  unfold delete_provider, bind at 1 2, logger_info at 1, ListConnections.
  cbn [nm_connections add_log]. fold (matching uuid w). rewrite Hm.
  cbn [length]. rewrite decide_False by (intros H; by apply H).
  unfold bind at 1. cbn [first_item ret].
  unfold bind at 1. cbn [logger_info]. fold w1.
  unfold bind at 1. cbn [for_each]. unfold bind at 1.
  rewrite (remove_certificate_run _ _ _ _ _ Hd Hca). unfold bind at 1.
  rewrite (remove_certificate_run _ _ _ _ _ Hd Hcert). unfold bind at 1.
  rewrite (remove_certificate_run _ _ _ _ _ Hd Hkey). unfold bind at 1.
  rewrite (remove_certificate_run _ _ _ _ _ Hd Hta). cbn [ret]. fold w2.
  unfold bind at 1, try_except at 1, Delete. fold w3.
  destruct (delete_error conn) as [err|].
  - reflexivity.
  - unfold bind. cbn [logger_info]. fold metadata.
    by rewrite try_os_remove_run.
Qed.

(** C2. [delete_provider] on exactly one matching connection, which carries
    the paths of its four credential files (ca, cert, key, ta). Whatever
    removals fail, the four credential files are all attempted and the
    request to delete the connection is sent: every regular file among the
    four is gone afterwards, and each path that could not be removed has
    its ERROR line in the log. When the service accepts the deletion, the
    call returns normally, the connection is gone and the metadata file
    was attempted as well (removed if it was a regular file, logged if
    not). When the service refuses, [delete_provider] raises the service's
    error, after logging it: the connection is still there. *)
Theorem delete_provider_failure_policy uuid w conn d ca cert key ta :
  matching uuid w = [conn] →
  vpn_data (GetSettings conn) = Some d →
  d !! "ca" = Some ca → d !! "cert" = Some cert →
  d !! "key" = Some key → d !! "ta" = Some ta →
  let creds := [ca; cert; key; ta] in
  let metadata := os_path_join config_path (uuid +:+ ".json") in
  ∃ w',
    nm_calls w' = nm_calls w ++ [CallDelete (obj_path conn)]
    ∧ (∀ p, p ∈ creds → is_file (files w !! p) = false →
         ∃ e, is_OSError e = true ∧ (ERROR, cert_msg p e) ∈ log w')
    ∧ match delete_error conn with
      | None =>
          delete_provider config_path uuid w = (Ok tt, w')
          ∧ files_removed (creds ++ [metadata]) (files w) (files w')
          ∧ nm_connections w'
            = filter (λ c, obj_path c ≠ obj_path conn) (nm_connections w)
          ∧ (is_file (files w !! metadata) = false →
             ∃ e, (ERROR, ovpn_msg e) ∈ log w')
      | Some err =>
          delete_provider config_path uuid w = (Raise (DBusException err), w')
          ∧ files_removed creds (files w) (files w')
          ∧ nm_connections w' = nm_connections w
          ∧ (ERROR, "can't remove networkmanager connection: " +:+ err) ∈ log w'
      end.
Proof.
  intros Hm Hd Hca Hcert Hkey Hta creds metadata.
  pose proof (delete_provider_run uuid w conn d ca cert key ta
                Hm Hd Hca Hcert Hkey Hta) as Hrun.
  cbv zeta in Hrun. fold metadata in Hrun.
  set (a0 := add_log INFO ("removing certificates for " +:+ uuid)
               (add_log INFO ("deleting profile with uuid " +:+ uuid +:+
                              " using NetworkManager") w)) in Hrun.
  set (a1 := cert_step ca a0) in Hrun. set (a2 := cert_step cert a1) in Hrun.
  set (a3 := cert_step key a2) in Hrun. set (a4 := cert_step ta a3) in Hrun.
  destruct (cert_step_spec ca a0) as (F1 & C1 & A1 & K1 & L1 & E1).
  destruct (cert_step_spec cert a1) as (F2 & C2 & A2 & K2 & L2 & E2).
  destruct (cert_step_spec key a2) as (F3 & C3 & A3 & K3 & L3 & E3).
  destruct (cert_step_spec ta a3) as (F4 & C4 & A4 & K4 & L4 & E4).
  fold a1 in F1, C1, A1, K1, L1, E1. fold a2 in F2, C2, A2, K2, L2, E2.
  fold a3 in F3, C3, A3, K3, L3, E3. fold a4 in F4, C4, A4, K4, L4, E4.
  assert (files_removed creds (files w) (files a4)) as Hfiles.
  { rewrite F4, F3, F2, F1.
    change creds with (((([] ++ [ca]) ++ [cert]) ++ [key]) ++ [ta]).
    do 4 apply files_removed_snoc. apply files_removed_nil. }
  assert (∀ p, p ∈ creds → is_file (files w !! p) = false →
            ∃ e, is_OSError e = true ∧ (ERROR, cert_msg p e) ∈ log a4) as Hlog.
  { intros p Hp Hf. unfold creds in Hp. rewrite !elem_of_cons in Hp.
    destruct Hp as [->|[->|[->|[->|Hp]]]]; [| | | |by apply not_elem_of_nil in Hp].
    - destruct (E1 Hf) as (e & ? & ?). exists e. split; [done|]. auto.
    - destruct E2 as (e & ? & ?).
      { rewrite F1. by apply rm_keeps_missing. }
      exists e. split; [done|]. auto.
    - destruct E3 as (e & ? & ?).
      { rewrite F2, F1. by do 2 apply rm_keeps_missing. }
      exists e. split; [done|]. auto.
    - destruct E4 as (e & ? & ?).
      { rewrite F3, F2, F1. by do 3 apply rm_keeps_missing. }
      exists e. split; [done|]. done. }
  destruct (delete_error conn) as [err|].
  - eexists. split; [|split; [|split; [exact Hrun|]]].
    + cbn. by rewrite K4, K3, K2, K1.
    + intros p Hp Hf. destruct (Hlog p Hp Hf) as (e & ? & ?).
      exists e. split; [done|]. cbn. apply elem_of_app. by left.
    + split; [exact Hfiles|]. split.
      * cbn. by rewrite C4, C3, C2, C1.
      * cbn. apply elem_of_app. right. by apply list_elem_of_singleton.
  - set (b := add_log INFO ("deleting metadata file " +:+ metadata)
                (set_connections
                   (filter (λ c, obj_path c ≠ obj_path conn) (nm_connections a4))
                   (add_call (CallDelete (obj_path conn)) a4))) in Hrun.
    destruct (after_remove_service metadata ovpn_msg b) as (Cb & Ab & Kb).
    destruct (after_remove_log metadata ovpn_msg b) as (l & Lb & Eb).
    eexists. split; [|split; [|split; [exact Hrun|]]].
    + rewrite Kb. cbn. by rewrite K4, K3, K2, K1.
    + intros p Hp Hf. destruct (Hlog p Hp Hf) as (e & ? & ?).
      exists e. split; [done|]. rewrite Lb. cbn. rewrite !elem_of_app. by do 2 left.
    + split; [|split].
      * rewrite after_remove_files. by apply files_removed_snoc.
      * rewrite Cb. cbn. by rewrite C4, C3, C2, C1.
      * intros Hf. destruct Eb as (e & _ & ->).
        { cbn. specialize (Hfiles metadata). rewrite Hfiles.
          by destruct (decide _). }
        exists e. rewrite Lb. apply elem_of_app. right.
        by apply list_elem_of_singleton.
Qed.

End delete_properties.

(** ** Disconnecting *)

Lemma for_each_deactivate conns w :
  ∃ r w',
    for_each conns DeactivateConnection w = (r, w')
    ∧ nm_calls w' = nm_calls w ++ (CallDeactivateConnection <$> until_refusal conns)
    ∧ nm_connections w' = nm_connections w
    ∧ nm_active w' = nm_active w
    ∧ files w' = files w
    ∧ ((∀ a, a ∈ conns → deactivate_error a = None) →
       r = Ok tt ∧ until_refusal conns = conns).
Proof.
  revert w. induction conns as [|a rest IH]; intros w.
  - exists (Ok tt), w. cbn. rewrite app_nil_r. by repeat split.
  - cbn [for_each until_refusal]. unfold bind. unfold DeactivateConnection at 1.
    destruct (deactivate_error a) as [err|] eqn:E.
    + eexists _, _. split; [done|]. cbn. do 4 (split; [done|]).
      intros H. specialize (H a). rewrite E in H.
      discriminate H. apply elem_of_cons. by left.
    + destruct (IH (add_call (CallDeactivateConnection a) w))
        as (r & w' & Hrun & K & C & A & F & Hall).
      exists r, w'. rewrite Hrun, K, C, A, F. cbn. rewrite <- app_assoc.
      do 5 (split; [done|]). intros H.
      destruct Hall as [-> Hu].
      { intros b Hb. apply H. apply elem_of_cons. by right. }
      by rewrite Hu.
Qed.

(** C8. [disconnect_provider] selects the active connections whose uuid is
    the one given. When there is none it raises [EduvpnException] (the spec's
    NotActive) and no request has been sent to the service. Otherwise it
    sends a deactivation request for the selected connections, in order, and
    stops only if the service refuses one: when the service accepts them all,
    every selected connection was requested and the call returns normally. *)
Theorem disconnect_provider_requests (uuid : string) (w : world) :
  let conns := filter (λ a, Uuid a = uuid) (nm_active w) in
  (conns = [] →
   ∃ w', disconnect_provider uuid w
         = (Raise (EduvpnException ("no active connection found with uuid " +:+ uuid)), w')
         ∧ nm_calls w' = nm_calls w
         ∧ nm_connections w' = nm_connections w
         ∧ nm_active w' = nm_active w)
  ∧ (conns ≠ [] →
     ∃ r w', disconnect_provider uuid w = (r, w')
             ∧ nm_calls w'
               = nm_calls w ++ (CallDeactivateConnection <$> until_refusal conns)
             ∧ ((∀ a, a ∈ conns → deactivate_error a = None) →
                r = Ok tt
                ∧ nm_calls w' = nm_calls w ++ (CallDeactivateConnection <$> conns))).
Proof.
  intros conns. split; intros Hc.
  - eexists. split.
    + unfold disconnect_provider, bind, logger_info, ActiveConnections.
      cbn [nm_active add_log]. fold conns. rewrite Hc. reflexivity.
    + done.
  - unfold disconnect_provider, bind at 1 2, logger_info, ActiveConnections.
    cbn [nm_active add_log]. fold conns.
    rewrite decide_False by (by destruct conns).
    set (w0 := add_log INFO _ w).
    destruct (for_each_deactivate conns w0) as (r & w' & -> & K & _ & _ & _ & Hall).
    exists r, w'. split; [done|]. split; [done|].
    intros Hok. destruct (Hall Hok) as [-> Hu]. split; [done|].
    by rewrite K, Hu.
Qed.

(** ** Status *)

Lemma is_provider_connected_loop_first uuid actives :
  is_provider_connected_loop uuid actives
  = match first_active uuid actives with
    | Some a => matched_status a
    | None => ret None
    end.
Proof.
  unfold first_active. induction actives as [|a rest IH]; [done|].
  cbn [is_provider_connected_loop]. rewrite filter_cons.
  destruct (decide (uuid = Uuid a)) as [->|Hne].
  - rewrite (decide_True (P := Uuid a = Uuid a)) by done. reflexivity.
  - rewrite (decide_False (P := Uuid a = uuid)) by congruence. exact IH.
Qed.

Lemma is_provider_connected_first uuid w :
  is_provider_connected uuid w
  = match first_active uuid (nm_active w) with
    | Some a => matched_status a (add_log INFO "getting list of active connections" w)
    | None => (Ok None, add_log INFO "getting list of active connections" w)
    end.
Proof.
  unfold is_provider_connected, list_active, bind, logger_info, ActiveConnections.
  cbn [nm_active add_log]. rewrite is_provider_connected_loop_first.
  by destruct (first_active uuid (nm_active w)).
Qed.

(** C5. [is_provider_connected] on a uuid that some active connection has,
    [a] being the first such connection. When the state of [a] is 2
    (connected) and both its address lists have a first entry, the call
    returns the address of the first IPv4 entry and the address of the first
    IPv6 entry. When the state of [a] is not 2, it returns the pair of two
    empty strings. *)
Theorem is_provider_connected_matched (uuid : string) (w : world)
    (a : active_connection) :
  first_active uuid (nm_active w) = Some a →
  (State a = 2%Z →
   ∀ ip4 rest4 ip6 rest6,
     AddressData (Ip4Config a) = ip4 :: rest4 →
     AddressData (Ip6Config a) = ip6 :: rest6 →
     is_provider_connected uuid w
     = (Ok (Some (address ip4, address ip6)),
        add_log INFO "getting list of active connections" w))
  ∧ (State a ≠ 2%Z →
     is_provider_connected uuid w
     = (Ok (Some ("", "")), add_log INFO "getting list of active connections" w)).
Proof.
  intros Hfirst. rewrite is_provider_connected_first, Hfirst. unfold matched_status.
  split.
  - intros Hs ip4 rest4 ip6 rest6 H4 H6. rewrite decide_True by done.
    unfold bind. by rewrite H4, H6.
  - intros Hs. by rewrite decide_False.
Qed.

(** C10. [is_provider_connected] does not always return: when the first
    active connection with the given uuid is in state 2 and its IPv4 or its
    IPv6 address list is empty, the call raises [IndexError]. *)
Theorem is_provider_connected_index_error (uuid : string) (w : world)
    (a : active_connection) :
  first_active uuid (nm_active w) = Some a →
  State a = 2%Z →
  AddressData (Ip4Config a) = [] ∨ AddressData (Ip6Config a) = [] →
  is_provider_connected uuid w
  = (Raise (IndexError "list index out of range"),
     add_log INFO "getting list of active connections" w).
Proof.
  intros Hfirst Hs Hempty. rewrite is_provider_connected_first, Hfirst.
  unfold matched_status. rewrite decide_True by done. unfold bind.
  destruct Hempty as [H|H].
  - by rewrite H.
  - rewrite H. by destruct (AddressData (Ip4Config a)).
Qed.

(** *** What leaves the active connections alone *)

Create HintDb keeps discriminated.

Lemma keeps_active_ret {A} (a : A) : keeps_active (ret a).
Proof. intros w r w' H. by inversion H. Qed.

Lemma keeps_active_raise {A} (e : exn) : keeps_active (raise (A := A) e).
Proof. intros w r w' H. by inversion H. Qed.

Lemma keeps_active_bind {A B} (m : M A) (k : A → M B) :
  keeps_active m → (∀ a, keeps_active (k a)) → keeps_active (bind m k).
Proof.
  intros Hm Hk w r w' H. unfold bind in H.
  destruct (m w) as [[a|e] w1] eqn:E.
  - rewrite (Hk a _ _ _ H). by eapply Hm.
  - inversion H; subst. by eapply Hm.
Qed.

Lemma keeps_active_try_except {A} (body : M A) catches handler :
  keeps_active body → (∀ e, keeps_active (handler e)) →
  keeps_active (try_except body catches handler).
Proof.
  intros Hb Hh w r w' H. unfold try_except in H.
  destruct (body w) as [[a|e] w1] eqn:E.
  - inversion H; subst. by eapply Hb.
  - destruct (catches e).
    + rewrite (Hh e _ _ _ H). by eapply Hb.
    + inversion H; subst. by eapply Hb.
Qed.

Lemma keeps_active_for_each {A} (xs : list A) body :
  (∀ x, keeps_active (body x)) → keeps_active (for_each xs body).
Proof.
  intros Hb. induction xs as [|x xs IH]; cbn.
  - apply keeps_active_ret.
  - apply keeps_active_bind; [apply Hb|done].
Qed.

Lemma keeps_active_if {A} (P : Prop) (d : Decision P) (m1 m2 : M A) :
  keeps_active m1 → keeps_active m2 → keeps_active (if d then m1 else m2).
Proof. by destruct d. Qed.

Lemma keeps_active_logger_info msg : keeps_active (logger_info msg).
Proof. intros w r w' H. by inversion H. Qed.

Lemma keeps_active_logger_error msg : keeps_active (logger_error msg).
Proof. intros w r w' H. by inversion H. Qed.

Lemma keeps_active_ListConnections : keeps_active ListConnections.
Proof. intros w r w' H. by inversion H. Qed.

Lemma keeps_active_first_item {A} (xs : list A) : keeps_active (first_item xs).
Proof. destruct xs; [apply keeps_active_raise|apply keeps_active_ret]. Qed.

Lemma keeps_active_vpn_data_get s f : keeps_active (vpn_data_get s f).
Proof.
  unfold vpn_data_get. destruct (vpn_data s) as [d|]; [|apply keeps_active_raise].
  destruct (d !! f); [apply keeps_active_ret|apply keeps_active_raise].
Qed.

Lemma keeps_active_os_remove p : keeps_active (os_remove p).
Proof.
  intros w r w' H. unfold os_remove in H.
  destruct (files w !! p) as [[]|]; by inversion H.
Qed.

Lemma keeps_active_Delete conn : keeps_active (Delete conn).
Proof.
  intros w r w' H. unfold Delete in H.
  destruct (delete_error conn); by inversion H.
Qed.

#[local] Hint Resolve keeps_active_ret keeps_active_raise keeps_active_bind
  keeps_active_try_except keeps_active_for_each keeps_active_if
  keeps_active_logger_info keeps_active_logger_error
  keeps_active_ListConnections keeps_active_first_item
  keeps_active_vpn_data_get keeps_active_os_remove keeps_active_Delete : keeps.

Lemma keeps_active_delete_provider config_path uuid :
  keeps_active (delete_provider config_path uuid).
Proof.
  unfold delete_provider, remove_certificate. cbv zeta.
  apply keeps_active_bind; [auto with keeps|]. intros _.
  apply keeps_active_bind; [auto with keeps|]. intros conns.
  apply keeps_active_if; [auto with keeps|].
  apply keeps_active_bind; [auto with keeps|]. intros conn.
  auto 20 with keeps.
Qed.

Lemma first_active_unmatched uuid actives :
  (∀ a, a ∈ actives → Uuid a ≠ uuid) → first_active uuid actives = None.
Proof.
  unfold first_active. induction actives as [|a rest IH]; intros H; [done|].
  rewrite filter_cons, decide_False.
  - apply IH. intros b Hb. apply H. apply elem_of_cons. by right.
  - apply H. apply elem_of_cons. by left.
Qed.

Lemma remove_certificate_missing conn f w :
  (vpn_data (GetSettings conn) ≫= λ d, d !! f) = None →
  ∃ k, remove_certificate conn f w = (Raise (KeyError k), w).
Proof.
  intros H. unfold remove_certificate, vpn_data_get, bind.
  destruct (vpn_data (GetSettings conn)) as [d|]; cbn in H.
  - rewrite H. by eexists.
  - by eexists.
Qed.

(** The loop over the credential files changes nothing of the service, and
    the only exception that leaves it is the [KeyError] of a missing entry. *)
Lemma for_each_remove_certificate conn fields w :
  ∃ r w1,
    for_each fields (remove_certificate conn) w = (r, w1)
    ∧ nm_connections w1 = nm_connections w
    ∧ nm_calls w1 = nm_calls w
    ∧ (r = Ok tt ∨ ∃ k, r = Raise (KeyError k)).
Proof.
  revert w. induction fields as [|f fields IH]; intros w.
  - exists (Ok tt), w. cbn. auto.
  - cbn [for_each]. unfold bind.
    destruct (vpn_data (GetSettings conn) ≫= λ d, d !! f) as [p|] eqn:E.
    + destruct (vpn_data (GetSettings conn)) as [d|] eqn:Ed; [|done]. cbn in E.
      rewrite (remove_certificate_run conn f d p w Ed E).
      destruct (cert_step_spec p w) as (_ & C & _ & K & _).
      destruct (IH (cert_step p w)) as (r & w1 & -> & C1 & K1 & Hr).
      exists r, w1. rewrite C1, K1, C, K. auto.
    + destruct (remove_certificate_missing conn f w E) as (k & ->).
      exists (Raise (KeyError k)), w. repeat split; eauto.
Qed.

Lemma filter_uuid_path uuid conn (cs : list connection) :
  filter (λ c, conn_uuid (GetSettings c) = uuid) cs = [conn] →
  filter (λ c, conn_uuid (GetSettings c) = uuid)
    (filter (λ c, obj_path c ≠ obj_path conn) cs) = [].
Proof.
  induction cs as [|c cs IH]; [done|]. rewrite filter_cons.
  destruct (decide (conn_uuid (GetSettings c) = uuid)) as [Hu|Hu].
  - intros [= -> Hnil]. rewrite filter_cons, decide_False by (by intros H; apply H).
    clear IH. induction cs as [|c' cs IH]; [done|]. rewrite filter_cons in Hnil.
    rewrite filter_cons. destruct (decide (conn_uuid (GetSettings c') = uuid)); [done|].
    destruct (decide (obj_path c' ≠ obj_path conn)); [|by apply IH].
    rewrite filter_cons, decide_False by done. by apply IH.
  - intros H. rewrite filter_cons.
    destruct (decide (obj_path c ≠ obj_path conn)); [|by apply IH].
    rewrite filter_cons, decide_False by done. by apply IH.
Qed.

Section delete_cases.

Variable config_path : string.

(** The ways a run of [delete_provider] can end. *)
Lemma delete_provider_cases (uuid : string) (w : world) :
  ∃ r w',
    delete_provider config_path uuid w = (r, w')
    ∧ ((length (matching uuid w) ≠ 1
        ∧ (∃ msg, r = Raise (EduvpnException msg))
        ∧ nm_connections w' = nm_connections w
        ∧ nm_calls w' = nm_calls w)
       ∨ ∃ conn,
           matching uuid w = [conn]
           ∧ (((∃ k, r = Raise (KeyError k))
               ∧ nm_connections w' = nm_connections w
               ∧ nm_calls w' = nm_calls w)
              ∨ ((∃ err, delete_error conn = Some err ∧ r = Raise (DBusException err))
                 ∧ nm_connections w' = nm_connections w
                 ∧ nm_calls w' = nm_calls w ++ [CallDelete (obj_path conn)])
              ∨ (delete_error conn = None
                 ∧ r = Ok tt
                 ∧ nm_connections w'
                   = filter (λ c, obj_path c ≠ obj_path conn) (nm_connections w)
                 ∧ nm_calls w' = nm_calls w ++ [CallDelete (obj_path conn)]))).
Proof.
  unfold delete_provider, bind at 1 2, logger_info at 1, ListConnections.
  cbn [nm_connections add_log]. fold (matching uuid w).
  destruct (decide (length (matching uuid w) ≠ 1)) as [Hn|Hn].
  - eexists _, _. split; [reflexivity|]. left. split; [done|]. split; [by eexists|done].
  - destruct (matching uuid w) as [|conn [|c2 rest]] eqn:Hm; cbn in Hn; [lia| |lia].
    unfold bind at 1. cbn [first_item ret].
    unfold bind at 1. cbn [logger_info].
    set (w1 := add_log INFO _ (add_log INFO _ w)).
    unfold bind at 1.
    destruct (for_each_remove_certificate conn ["ca"; "cert"; "key"; "ta"] w1)
      as (r & w2 & -> & C & K & [->|[k ->]]).
    + unfold bind at 1, try_except at 1, Delete.
      destruct (delete_error conn) as [err|] eqn:Hd.
      * eexists _, _. split; [reflexivity|]. right. exists conn. split; [done|].
        right. left. cbn. rewrite C, K. eauto.
      * unfold bind. cbn [logger_info]. rewrite try_os_remove_run by done.
        eexists _, _. split; [reflexivity|]. right. exists conn. split; [done|].
        right. right.
        match goal with
        | |- context [after_remove ?p ?m ?b] =>
            destruct (after_remove_service p m b) as (Cb & _ & Kb)
        end.
        rewrite Cb, Kb. cbn. rewrite C, K. done.
    + eexists _, _. split; [reflexivity|]. right. exists conn. split; [done|].
      left. rewrite C, K. eauto.
Qed.

Lemma delete_provider_none_run uuid w :
  matching uuid w = [] →
  delete_provider config_path uuid w
  = (Raise (EduvpnException ("0 connections matching uid " +:+ uuid)),
     add_log INFO ("deleting profile with uuid " +:+ uuid +:+ " using NetworkManager") w).
Proof.
  intros Hm. unfold delete_provider, bind, logger_info, ListConnections.
  cbn [nm_connections add_log]. fold (matching uuid w). by rewrite Hm.
Qed.

Lemma delete_provider_ok_gone uuid w w1 :
  delete_provider config_path uuid w = (Ok tt, w1) → matching uuid w1 = [].
Proof.
  intros Hrun.
  destruct (delete_provider_cases uuid w) as (r & w' & Hrun' & Hcases).
  rewrite Hrun in Hrun'. injection Hrun' as <- <-.
  destruct Hcases as [(_ & [msg [=]] & _)|(conn & Hm & [([k [=]] & _)|[([err [_ [=]]] & _)|(_ & _ & C & _)]])].
  unfold matching. rewrite C. by apply filter_uuid_path.
Qed.

End delete_cases.

Lemma matched_status_not_none a w : (matched_status a w).1 ≠ Ok None.
Proof.
  unfold matched_status. destruct (decide (State a = 2%Z)); [|done].
  unfold bind.
  destruct (AddressData (Ip4Config a)); [done|].
  by destruct (AddressData (Ip6Config a)).
Qed.

Lemma matched_status_outcome a w w' : (matched_status a w).1 = (matched_status a w').1.
Proof.
  unfold matched_status. destruct (decide (State a = 2%Z)); [|done].
  unfold bind.
  destruct (AddressData (Ip4Config a)); [done|].
  by destruct (AddressData (Ip6Config a)).
Qed.

Lemma first_active_none uuid actives :
  first_active uuid actives = None ↔ ∀ a, a ∈ actives → Uuid a ≠ uuid.
Proof.
  split; [|apply first_active_unmatched].
  unfold first_active. intros Hnone a Ha Hu.
  assert (a ∈ filter (λ a, Uuid a = uuid) actives) as Hin
    by (by apply list_elem_of_filter).
  destruct (filter (λ a, Uuid a = uuid) actives); [|done].
  by apply not_elem_of_nil in Hin.
Qed.


(** ** Listing and the metadata file *)

Section metadata_properties.

Variable config_path : string.
Variable json_loads : string → option value.
Variable json_dump : value → string * option exn.

Lemma json_load_run path w :
  json_load json_loads path w
  = match files w !! path with
    | Some (File text) =>
        match json_loads text with
        | Some v => (Ok v, w)
        | None => (Raise (ValueError "No JSON object could be decoded"), w)
        end
    | Some Dir => (Raise (OSError "[Errno 21] Is a directory" path), w)
    | None => (Raise (OSError "[Errno 2] No such file or directory" path), w)
    end.
Proof.
  unfold json_load, bind, read_file.
  destruct (files w !! path) as [[text|]|]; [|done..].
  by destruct (json_loads text).
Qed.

(** The handler ran on [e]: one ERROR line more, the rest as it was. *)
Ltac logged_failure e :=
  eexists; split; [reflexivity|]; cbn [any_Exception];
  repeat split; try done;
  [ intros x Hx; cbn; apply elem_of_app; by left
  | intros _; exists e; cbn; apply elem_of_app; right;
    by apply list_elem_of_singleton ].

Lemma list_providers_entry_run conn w :
  ∃ w',
    list_providers_entry config_path json_loads conn w
    = (Ok (list_entry config_path json_loads (files w) conn), w')
    ∧ files w' = files w
    ∧ nm_connections w' = nm_connections w
    ∧ nm_calls w' = nm_calls w
    ∧ (∀ x, x ∈ log w → x ∈ log w')
    ∧ (load_metadata config_path json_loads (files w) (conn_uuid conn) = None →
       ∃ e, (ERROR, "can't load metadata file: " +:+ exn_str e) ∈ log w').
Proof.
  unfold list_providers_entry, try_except_else, list_entry, load_metadata.
  rewrite json_load_run.
  destruct (files w !! _) as [[text|]|]; [destruct (json_loads text)|..].
  - exists w. by repeat split.
  - logged_failure (ValueError "No JSON object could be decoded").
  - logged_failure (OSError "[Errno 21] Is a directory"
                      (os_path_join config_path (conn_uuid conn +:+ ".json"))).
  - logged_failure (OSError "[Errno 2] No such file or directory"
                      (os_path_join config_path (conn_uuid conn +:+ ".json"))).
Qed.

Lemma list_providers_loop_run conns w :
  ∃ w',
    list_providers_loop config_path json_loads conns w
    = (Ok (list_entry config_path json_loads (files w) <$> conns), w')
    ∧ files w' = files w
    ∧ nm_connections w' = nm_connections w
    ∧ nm_calls w' = nm_calls w
    ∧ (∀ x, x ∈ log w → x ∈ log w')
    ∧ (∀ conn, conn ∈ conns →
         load_metadata config_path json_loads (files w) (conn_uuid conn) = None →
         ∃ e, (ERROR, "can't load metadata file: " +:+ exn_str e) ∈ log w').
Proof.
  revert w. induction conns as [|conn rest IH]; intros w.
  - exists w. repeat split; try done. intros conn H. by apply not_elem_of_nil in H.
  - cbn [list_providers_loop]. unfold bind.
    destruct (list_providers_entry_run conn w) as (w1 & -> & F1 & C1 & K1 & L1 & E1).
    destruct (IH w1) as (w2 & -> & F2 & C2 & K2 & L2 & E2).
    exists w2. rewrite F2, C2, K2, F1, C1, K1. cbn.
    repeat split; try done.
    + auto.
    + intros c Hc Hnone. apply elem_of_cons in Hc as [->|Hc].
      * destruct (E1 Hnone) as (e & He). exists e. auto.
      * apply (E2 c Hc). by rewrite F1.
Qed.

(** C7. [list_providers], run to its end, never raises and gives one entry
    for each VPN connection of the service, in the service's order: the
    metadata record of the connection when its file loads and parses, and
    otherwise the placeholder made of the connection's uuid, the
    connection's display name, no icon data and the connection type
    ['unknown']. Each record that did not load left an ERROR line in the
    log; nothing else was changed. *)
Theorem list_providers_degrades (w : world) :
  ∃ w',
    list_providers config_path json_loads w
    = (Ok (list_entry config_path json_loads (files w) <$> vpn_settings w), w')
    ∧ (∀ conn, conn ∈ vpn_settings w →
         load_metadata config_path json_loads (files w) (conn_uuid conn) = None →
         list_entry config_path json_loads (files w) conn
         = VDict [("uuid", VStr (conn_uuid conn));
                  ("display_name", VStr (conn_id conn));
                  ("icon_data", VNone);
                  ("connection_type", VStr "unknown")]
         ∧ ∃ e, (ERROR, "can't load metadata file: " +:+ exn_str e) ∈ log w')
    ∧ (∀ conn m, conn ∈ vpn_settings w →
         load_metadata config_path json_loads (files w) (conn_uuid conn) = Some m →
         list_entry config_path json_loads (files w) conn = m)
    ∧ files w' = files w
    ∧ nm_connections w' = nm_connections w
    ∧ nm_calls w' = nm_calls w.
Proof.
  unfold list_providers, bind at 1 2, ListConnections, logger_info.
  cbn [nm_connections add_log]. fold (vpn_settings w).
  set (w0 := add_log INFO _ w).
  destruct (list_providers_loop_run (vpn_settings w) w0)
    as (w' & Hrun & F & C & K & L & E).
  change (files w0) with (files w) in *.
  change (nm_connections w0) with (nm_connections w) in *.
  change (nm_calls w0) with (nm_calls w) in *.
  exists w'. split; [exact Hrun|]. split; [|split; [|by rewrite F, C, K]].
  - intros conn Hin Hnone. split.
    + unfold list_entry. by rewrite Hnone.
    + exact (E conn Hin Hnone).
  - intros conn m _ Hsome. unfold list_entry. by rewrite Hsome.
Qed.

Lemma dict_get_set_eq k v d : dict_get k (dict_set k v d) = Some v.
Proof.
  induction d as [|[k' v'] d IH]; cbn.
  - by rewrite decide_True.
  - destruct (decide (k' = k)) as [->|Hne]; cbn.
    + by rewrite decide_True.
    + by rewrite decide_False.
Qed.

Lemma dict_get_set_ne k k' v d :
  k' ≠ k → dict_get k' (dict_set k v d) = dict_get k' d.
Proof.
  intros Hne. induction d as [|[k0 v0] d IH]; cbn.
  - by rewrite decide_False.
  - destruct (decide (k0 = k)) as [->|Hne0]; cbn.
    + by rewrite !decide_False.
    + by rewrite IH.
Qed.

Lemma other_fields_set k v d : other_fields k (dict_set k v d) = other_fields k d.
Proof.
  unfold other_fields. induction d as [|[k0 v0] d IH]; cbn [dict_set].
  - rewrite filter_cons. cbn [fst]. by rewrite decide_False by (by intros H; apply H).
  - destruct (decide (k0 = k)) as [->|Hne0].
    + rewrite !filter_cons. cbn [fst].
      by rewrite !decide_False by (by intros H; apply H).
    + rewrite !filter_cons. cbn [fst]. by rewrite IH.
Qed.

(** Dumping to a file that is there: the file holds what [json.dump] wrote,
    whether it raised or not. *)
Lemma json_dump_file_run metadata path w text :
  files w !! path = Some (File text) →
  json_dump_file json_dump metadata path w
  = (match (json_dump metadata).2 with
     | Some e => Raise e
     | None => Ok tt
     end,
     set_files (<[path := File (json_dump metadata).1]> (files w)) w).
Proof.
  intros Hfile. unfold json_dump_file, bind, write_file. rewrite Hfile.
  cbn [files set_files]. rewrite lookup_insert_eq, insert_insert_eq.
  by destruct (json_dump metadata).2.
Qed.

(** The run of [update_token] on a metadata file that holds an object. *)
Lemma update_token_object_run uuid token w text d :
  let path := os_path_join config_path (uuid +:+ ".json") in
  let metadata := VDict (dict_set "token" token d) in
  files w !! path = Some (File text) →
  json_loads text = Some (VDict d) →
  update_token config_path json_loads json_dump uuid token w
  = (match (json_dump metadata).2 with
     | Some e => Raise e
     | None => Ok tt
     end,
     set_files (<[path := File (json_dump metadata).1]> (files w))
       (add_log INFO ("writing new token information for " +:+ uuid) w)).
Proof.
  intros path metadata Hfile Hjson.
  unfold update_token, bind at 1 2, logger_info. fold path.
  rewrite json_load_run. cbn [files add_log]. rewrite Hfile, Hjson.
  unfold bind at 1. cbn [set_item ret]. fold metadata.
  by rewrite (json_dump_file_run metadata path _ text).
Qed.

(** C4. [update_token] on a uuid whose metadata file holds a JSON object,
    with a token that [json.dump] serialises, [json.load] reading back what
    [json.dump] wrote. The call returns normally and only the metadata file
    is rewritten. The record it now holds has the token supplied under the
    key ['token']; every other key reads as before, and the entries under
    the other keys are the same, in the same order. Nothing of the service
    was changed. *)
Theorem update_token_only_token (uuid : string) (token : value) (w : world)
    (text text' : string) (d : dict) :
  let path := os_path_join config_path (uuid +:+ ".json") in
  let d' := dict_set "token" token d in
  files w !! path = Some (File text) →
  json_loads text = Some (VDict d) →
  json_dump (VDict d') = (text', None) →
  json_loads text' = Some (VDict d') →
  ∃ w',
    update_token config_path json_loads json_dump uuid token w = (Ok tt, w')
    ∧ files w' = <[path := File text']> (files w)
    ∧ load_metadata config_path json_loads (files w') uuid = Some (VDict d')
    ∧ dict_get "token" d' = Some token
    ∧ (∀ k, k ≠ "token" → dict_get k d' = dict_get k d)
    ∧ other_fields "token" d' = other_fields "token" d
    ∧ nm_connections w' = nm_connections w
    ∧ nm_active w' = nm_active w
    ∧ nm_calls w' = nm_calls w.
Proof.
  intros path d' Hfile Hjson Hdump Hround.
  pose proof (update_token_object_run uuid token w text d Hfile Hjson) as Hrun.
  cbv zeta in Hrun. fold path d' in Hrun. rewrite Hdump in Hrun. cbn [fst snd] in Hrun.
  eexists. split; [exact Hrun|]. cbn [files set_files].
  split; [done|]. split.
  { unfold load_metadata. fold path. by rewrite lookup_insert_eq. }
  split; [apply dict_get_set_eq|].
  split; [intros k Hk; by apply dict_get_set_ne|].
  split; [apply other_fields_set|done].
Qed.

(** A metadata file that holds JSON other than an object: [update_token]
    raises [TypeError] at the assignment and the file is not written. *)
Lemma update_token_not_object (uuid : string) (token : value) (w : world)
    (text : string) (v : value) :
  let path := os_path_join config_path (uuid +:+ ".json") in
  files w !! path = Some (File text) →
  json_loads text = Some v →
  (∀ d, v ≠ VDict d) →
  ∃ msg w',
    update_token config_path json_loads json_dump uuid token w
    = (Raise (TypeError msg), w')
    ∧ files w' = files w.
Proof.
  intros path Hfile Hjson Hv.
  unfold update_token, bind at 1 2, logger_info. fold path.
  rewrite json_load_run. cbn [files add_log]. rewrite Hfile, Hjson.
  unfold bind. destruct v; try (by eexists _, _); by destruct (Hv entries).
Qed.

(** X12. [update_token] with a token that [json.dump] cannot serialise, on
    a metadata file that holds an object: the call raises the exception of
    [json.dump]. The file was emptied when it was opened and holds what was
    written before [json.dump] raised: the record is lost. *)
Lemma update_token_dump_raises (uuid : string) (token : value) (w : world)
    (text partial : string) (d : dict) (e : exn) :
  let path := os_path_join config_path (uuid +:+ ".json") in
  files w !! path = Some (File text) →
  json_loads text = Some (VDict d) →
  json_dump (VDict (dict_set "token" token d)) = (partial, Some e) →
  ∃ w',
    update_token config_path json_loads json_dump uuid token w = (Raise e, w')
    ∧ files w' !! path = Some (File partial).
Proof.
  intros path Hfile Hjson Hdump.
  pose proof (update_token_object_run uuid token w text d Hfile Hjson) as Hrun.
  cbv zeta in Hrun. fold path in Hrun. rewrite Hdump in Hrun. cbn [fst snd] in Hrun.
  eexists. split; [exact Hrun|]. cbn [files set_files]. apply lookup_insert_eq.
Qed.

End metadata_properties.

(** ** Updating the configuration *)

Section update_properties.

Variable parse_ovpn : string → outcome dict.
Variable ovpn_to_nm : dict → string → value → outcome settings.
Variable write_cert :
  value → string → string → gmap string fnode → outcome string * gmap string fnode.

(** C3. [update_config_provider] on a uuid that has a connection in the
    service, [old_conn] being the one [GetConnectionByUuid] gives. The new
    configuration parses and holds a [ca] and a [tls-auth] block, both
    files are written, the translation gives settings with a [vpn] data
    dictionary, the old connection carries a [cert] and a [key] path, and
    the service accepts the two requests. Then the call returns normally;
    it has sent exactly two requests to the service, first the deletion of
    [old_conn], then the insertion of the replacement settings; in the
    replacement, [cert] and [key] are the paths of [old_conn], [ca] and
    [ta] are the paths of the files just written, and the other entries
    are those of the translation. *)
Theorem update_config_provider_keeps_cert_key
    (uuid display_name config : string) (w : world)
    (config_dict : dict) (ca ta : value) (ca_path ta_path : string)
    (fs1 fs2 : gmap string fnode) (nm_config : settings)
    (data old_data : gmap string string)
    (old_conn : connection) (others : list connection) (cert key : string) :
  parse_ovpn config = Ok config_dict →
  dict_get "ca" config_dict = Some ca →
  write_cert ca "ca" uuid (files w) = (Ok ca_path, fs1) →
  dict_get "tls-auth" (dict_remove "ca" config_dict) = Some ta →
  write_cert ta "ta" uuid fs1 = (Ok ta_path, fs2) →
  ovpn_to_nm (dict_remove "tls-auth" (dict_remove "ca" config_dict)) uuid
    (VStr display_name) = Ok nm_config →
  vpn_data nm_config = Some data →
  matching uuid w = old_conn :: others →
  vpn_data (GetSettings old_conn) = Some old_data →
  old_data !! "cert" = Some cert →
  old_data !! "key" = Some key →
  delete_error old_conn = None →
  nm_add_error w = None →
  ∃ w' replacement new_data,
    update_config_provider parse_ovpn ovpn_to_nm write_cert
      uuid display_name config w = (Ok tt, w')
    ∧ nm_calls w'
      = nm_calls w ++ [CallDelete (obj_path old_conn); CallAddConnection replacement]
    ∧ vpn_data replacement = Some new_data
    ∧ new_data !! "cert" = old_data !! "cert"
    ∧ new_data !! "key" = old_data !! "key"
    ∧ new_data !! "ca" = Some ca_path
    ∧ new_data !! "ta" = Some ta_path
    ∧ (∀ k, k ∉ ["cert"; "key"; "ca"; "ta"] → new_data !! k = data !! k)
    ∧ (conn_id replacement, conn_uuid replacement, conn_type replacement)
      = (conn_id nm_config, conn_uuid nm_config, conn_type nm_config)
    ∧ GetSettings <$> nm_connections w'
      = (GetSettings <$> filter (λ c, obj_path c ≠ obj_path old_conn)
                           (nm_connections w)) ++ [replacement]
    ∧ files w' = fs2.
Proof.
  intros Hparse Hca Hwca Hta Hwta Hnm Hdata Hold Holddata Hcert Hkey Hdel Hadd.
  eexists _, (with_vpn_data nm_config (paths_update cert key ca_path ta_path data)),
    (paths_update cert key ca_path ta_path data).
  split.
  - unfold update_config_provider, bind at 1 2, logger_info.
    rewrite Hparse. cbn [lift_outcome].
    unfold bind at 1, dict_item. rewrite Hca. cbn [ret].
    unfold bind at 1, lift_fs at 1. cbn [files add_log]. rewrite Hwca.
    unfold bind at 1. rewrite Hta. cbn [ret].
    unfold bind at 1, lift_fs at 1. cbn [files set_files]. rewrite Hwta.
    unfold bind at 1. rewrite Hnm. cbn [lift_outcome].
    unfold bind at 1, GetConnectionByUuid. cbn [nm_connections set_files add_log].
    fold (matching uuid w). rewrite Hold.
    unfold bind at 1, vpn_data_dict. rewrite Hdata. cbn [ret].
    unfold bind at 1, vpn_data_get. rewrite Holddata, Hcert. cbn [ret].
    unfold bind at 1. rewrite Hkey. cbn [ret].
    unfold bind at 1, Delete. rewrite Hdel.
    unfold bind at 1, insert_config, bind, logger_info, AddConnection.
    cbn [nm_add_error set_connections add_call add_log set_files]. rewrite Hadd.
    reflexivity.
  - cbn [nm_calls set_connections add_call add_log set_files nm_connections files].
    rewrite <- app_assoc. split; [done|]. split; [done|].
    unfold paths_update. rewrite Hcert, Hkey.
    split; [by simplify_map_eq|]. split; [by simplify_map_eq|].
    split; [by simplify_map_eq|]. split; [by simplify_map_eq|].
    split.
    { intros k Hk. rewrite !not_elem_of_cons in Hk.
      destruct Hk as (? & ? & ? & ? & _). by rewrite !lookup_insert_ne. }
    split; [done|]. split; [|done].
    by rewrite fmap_app.
Qed.

End update_properties.

(** ** The background step of the finalize flow *)

Section finalize_properties.

Variable config_path : string.
Variable stored_metadata : list string.
Variable make_unique_id : world → string.
Variable format_like_ovpn : value → value → value → outcome string.
Variable parse_ovpn : string → outcome dict.
Variable ovpn_to_nm : dict → string → value → outcome settings.
Variable write_cert :
  value → string → string → gmap string fnode → outcome string * gmap string fnode.
Variable mkdir_p : string → gmap string fnode → outcome unit * gmap string fnode.
Variable store_metadata :
  string → dict → gmap string fnode → outcome unit * gmap string fnode.
Variable create_keypair : value → value → outcome (value * value).
Variable get_profile_config : value → value → value → outcome value.

Local Abbreviation store_provider' :=
  (store_provider config_path stored_metadata make_unique_id format_like_ovpn
     parse_ovpn ovpn_to_nm write_cert mkdir_p store_metadata).
Local Abbreviation background' :=
  (_background config_path stored_metadata make_unique_id format_like_ovpn
     parse_ovpn ovpn_to_nm write_cert mkdir_p store_metadata
     create_keypair get_profile_config).
Local Abbreviation fetch' := (_background_fetch create_keypair get_profile_config).

(** A call of [store_provider] with one positional argument raises
    [TypeError] while the arguments are bound: the body does not start and
    the world is as it was. *)
Lemma store_provider_one_argument (arg : value) (w : world) :
  store_provider' [arg] w
  = (Raise (TypeError "store_provider() missing 12 required positional arguments"),
     w).
Proof. reflexivity. Qed.

(** The first [try] of [_background] does not change the world. *)
Lemma background_fetch_pure (meta : dict) (oauth : value) (w : world) :
  (fetch' meta oauth w).2 = w.
Proof.
  unfold _background_fetch, bind, getattr, lift_outcome, ret, raise.
  destruct (dict_get "api_base_uri" meta) as [api|]; [|done].
  destruct (create_keypair oauth api) as [[cert key]|]; [|done]. cbn [fst snd].
  destruct (dict_get "api_base_uri" _) as [api'|]; [|done].
  destruct (dict_get "profile_id" _) as [profile_id|]; [|done].
  by destruct (get_profile_config oauth api' profile_id).
Qed.

(** C9. [_background] calls [store_provider] with one argument, the
    metadata object, where thirteen are required. So every run of
    [_background] ends by raising, and none stores a profile: the files,
    the connections of the service, the requests sent to it and the log
    are as they were, and neither the notification nor the refresh of the
    provider list is queued. When the key pair and the configuration were
    fetched, what is raised is the [TypeError] of the call to
    [store_provider], and the "can't store configuration" error and
    the hiding of the dialog are what is queued. When fetching failed,
    its exception is raised after the "can't finalize configuration"
    error was queued. *)
Theorem background_store_always_raises (meta : dict) (oauth : value) (w : world) :
  ∃ e w',
    background' meta oauth w = (Raise e, w')
    ∧ files w' = files w
    ∧ nm_connections w' = nm_connections w
    ∧ nm_calls w' = nm_calls w
    ∧ log w' = log w
    ∧ match (fetch' meta oauth w).1 with
      | Ok _ =>
          e = TypeError "store_provider() missing 12 required positional arguments"
          ∧ idle_queue w'
            = idle_queue w ++
              [ErrorHelper "can't store configuration"
                 "TypeError store_provider() missing 12 required positional arguments";
               DialogHide]
      | Raise e0 =>
          e = e0
          ∧ idle_queue w'
            = idle_queue w ++
              [ErrorHelper "can't finalize configuration"
                 (exn_name e0 +:+ ": " +:+ exn_str e0);
               DialogHide]
      end.
Proof.
  pose proof (background_fetch_pure meta oauth w) as Hpure.
  unfold _background, try_except_else at 1.
  destruct (fetch' meta oauth w) as [[meta'|e0] w1]; cbn [fst snd] in *; subst w1.
  - unfold try_except_else, bind at 1. rewrite store_provider_one_argument.
    cbn [any_Exception]. unfold bind, idle_add, raise.
    eexists _, _. split; [reflexivity|]. cbn. rewrite <- app_assoc.
    by repeat split.
  - cbn [any_Exception]. unfold bind, idle_add, raise.
    eexists _, _. split; [reflexivity|]. cbn. rewrite <- app_assoc.
    by repeat split.
Qed.

End finalize_properties.

(** * Further properties of the manager *)

(** ** Reasoning on the outcome and the world a computation leaves *)

Lemma post_bind {A B} (m : M A) (k : A → M B) w (Q : outcome B → world → Prop) :
  post m w (λ r w1, match r with
                    | Ok a => post (k a) w1 Q
                    | Raise e => Q (Raise e) w1
                    end) →
  post (bind m k) w Q.
Proof. unfold post, bind. by destruct (m w) as [[a|e] w1]. Qed.

Lemma post_run {A} (m : M A) w (Q : outcome A → world → Prop) :
  post m w Q → ∃ r w', m w = (r, w') ∧ Q r w'.
Proof. intros H. exists (m w).1, (m w).2. split; [apply surjective_pairing|exact H]. Qed.

Lemma post_ret {A} (a : A) w (Q : outcome A → world → Prop) :
  Q (Ok a) w → post (ret a) w Q.
Proof. done. Qed.

Lemma post_dict_item k l w (Q : outcome value → world → Prop) :
  match dict_get k l with
  | Some v => Q (Ok v) w
  | None => Q (Raise (KeyError k)) w
  end →
  post (dict_item k l) w Q.
Proof. unfold post, dict_item. by destruct (dict_get k l). Qed.

Lemma post_logger_info msg w (Q : outcome unit → world → Prop) :
  Q (Ok tt) (add_log INFO msg w) → post (logger_info msg) w Q.
Proof. done. Qed.

Lemma post_lift_outcome {A} (o : outcome A) w (Q : outcome A → world → Prop) :
  Q o w → post (lift_outcome o) w Q.
Proof. done. Qed.

Lemma post_lift_fs {A} (f : gmap string fnode → outcome A * gmap string fnode) w
    (Q : outcome A → world → Prop) :
  Q (f (files w)).1 (set_files (f (files w)).2 w) → post (lift_fs f) w Q.
Proof. unfold post, lift_fs. by destruct (f (files w)). Qed.

Lemma comprehension_post (l : dict) names store w (Q : outcome dict → world → Prop) :
  (∀ store', Q (Ok store') w) →
  (∀ k, Q (Raise (KeyError k)) w) →
  post ((fix comprehension (names : list string) (store : dict) : M dict :=
           match names with
           | [] => ret store
           | i :: names' =>
               v <~ dict_item i l ;;
               comprehension names' (dict_set i v store)
           end) names store) w Q.
Proof.
  intros Hok Hraise. revert store. induction names as [|i names IH]; intros store.
  - apply Hok.
  - apply post_bind, post_dict_item.
    destruct (dict_get i l) as [v|]; [apply IH|apply Hraise].
Qed.

(** ** Deleting: every way it ends, and what follows a deletion *)

Lemma same_path_same_connection (cs : list connection) c1 c2 :
  NoDup (obj_path <$> cs) → c1 ∈ cs → c2 ∈ cs → obj_path c1 = obj_path c2 → c1 = c2.
Proof.
  induction cs as [|c cs IH]; intros Hnd H1 H2 Hp.
  - by apply not_elem_of_nil in H1.
  - rewrite fmap_cons in Hnd. apply NoDup_cons in Hnd as [Hnot Hnd].
    apply elem_of_cons in H1 as [->|H1]; apply elem_of_cons in H2 as [->|H2].
    + done.
    + exfalso. apply Hnot. rewrite Hp. apply list_elem_of_fmap. eauto.
    + exfalso. apply Hnot. rewrite <- Hp. apply list_elem_of_fmap. eauto.
    + by apply IH.
Qed.

Lemma list_providers_result config_path json_loads w :
  (list_providers config_path json_loads w).1
  = Ok (list_entry config_path json_loads (files w) <$> vpn_settings w).
Proof.
  destruct (list_providers_loop_run config_path json_loads (vpn_settings w)
              (add_log INFO ("There are " +:+ pretty (length (vpn_settings w)) +:+
                             " VPN connections in networkmanager") w))
    as (w' & Hrun & _).
  unfold list_providers, bind at 1 2, ListConnections, logger_info.
  cbn [nm_connections add_log]. fold (vpn_settings w). by rewrite Hrun.
Qed.

Lemma vpn_monitor_loop_app callback connections handlers :
  vpn_monitor_loop callback connections handlers
  = handlers ++
    ((λ c, SignalHandler (obj_path c) "Updated" callback)
       <$> filter (λ c, conn_type (GetSettings c) = "vpn") connections).
Proof.
  revert handlers. induction connections as [|c rest IH]; intros handlers.
  - cbn. by rewrite app_nil_r.
  - cbn [vpn_monitor_loop]. rewrite IH, filter_cons.
    destruct (decide (conn_type (GetSettings c) = "vpn")); [|done].
    unfold connect_to_signal. by rewrite <- app_assoc.
Qed.

Section delete_more.

Variable config_path : string.
Variable json_loads : string → option value.

(** X1. Every run of [delete_provider] ends in one of four ways. It raises
    [EduvpnException] because the number of connections with the uuid is
    not one, and no request was sent. Or, with exactly one such connection:
    it raises [KeyError] (the connection lacks a credential entry), and no
    request was sent; it raises the service's error on the one deletion
    request it sent, and the connections are as they were; or it returns
    normally after that one request, and the connection is no longer among
    those of the service. It never sends any other request. *)
Theorem delete_provider_outcomes (uuid : string) (w : world) :
  ∃ r w',
    delete_provider config_path uuid w = (r, w')
    ∧ ((length (matching uuid w) ≠ 1
        ∧ (∃ msg, r = Raise (EduvpnException msg))
        ∧ nm_connections w' = nm_connections w
        ∧ nm_calls w' = nm_calls w)
       ∨ ∃ conn,
           matching uuid w = [conn]
           ∧ (((∃ k, r = Raise (KeyError k))
               ∧ nm_connections w' = nm_connections w
               ∧ nm_calls w' = nm_calls w)
              ∨ ((∃ err, delete_error conn = Some err ∧ r = Raise (DBusException err))
                 ∧ nm_connections w' = nm_connections w
                 ∧ nm_calls w' = nm_calls w ++ [CallDelete (obj_path conn)])
              ∨ (delete_error conn = None
                 ∧ r = Ok tt
                 ∧ nm_connections w'
                   = filter (λ c, obj_path c ≠ obj_path conn) (nm_connections w)
                 ∧ nm_calls w' = nm_calls w ++ [CallDelete (obj_path conn)]))).
Proof. apply delete_provider_cases. Qed.

(** X2. [delete_provider] is not idempotent: after a call that returned
    normally, a second call with the same uuid raises [EduvpnException] for
    zero matching connections, and changes nothing. *)
Theorem delete_provider_twice (uuid : string) (w w1 : world) :
  delete_provider config_path uuid w = (Ok tt, w1) →
  ∃ w2,
    delete_provider config_path uuid w1
    = (Raise (EduvpnException ("0 connections matching uid " +:+ uuid)), w2)
    ∧ files w2 = files w1
    ∧ nm_connections w2 = nm_connections w1
    ∧ nm_calls w2 = nm_calls w1.
Proof.
  intros Hrun. eexists. split.
  - apply delete_provider_none_run. by eapply delete_provider_ok_gone.
  - done.
Qed.

(** The run of [delete_provider] from the loop over the credential files
    on, when exactly one connection has the uuid. *)
Lemma delete_provider_one_run uuid w conn :
  matching uuid w = [conn] →
  delete_provider config_path uuid w
  = (for_each ["ca"; "cert"; "key"; "ta"] (remove_certificate conn) ;;;
     try_except (Delete conn) any_Exception
       (λ e, logger_error ("can't remove networkmanager connection: " +:+ exn_str e) ;;;
             raise e) ;;;
     let metadata := os_path_join config_path (uuid +:+ ".json") in
     logger_info ("deleting metadata file " +:+ metadata) ;;;
     try_except (os_remove metadata) any_Exception
       (λ e, logger_error ("can't remove ovpn file: " +:+ exn_str e)))
      (add_log INFO ("removing certificates for " +:+ uuid)
         (add_log INFO ("deleting profile with uuid " +:+ uuid +:+
                        " using NetworkManager") w)).
Proof.
  intros Hm. unfold delete_provider, bind at 1 2, logger_info at 1, ListConnections.
  cbn [nm_connections add_log]. fold (matching uuid w). rewrite Hm.
  cbn [length]. rewrite decide_False by (intros H; by apply H).
  unfold bind at 1. cbn [first_item ret]. unfold bind at 1. reflexivity.
Qed.

(** X3. [delete_provider] on the one connection with the uuid, when that
    connection has no [vpn] block (it is not a VPN connection): the lookup
    of the first credential path raises [KeyError], before any file is
    removed and before any request is sent. The connection stays. *)
Theorem delete_provider_no_vpn_block (uuid : string) (w : world) (conn : connection) :
  matching uuid w = [conn] →
  vpn_data (GetSettings conn) = None →
  ∃ w',
    delete_provider config_path uuid w = (Raise (KeyError "vpn"), w')
    ∧ files w' = files w
    ∧ nm_connections w' = nm_connections w
    ∧ nm_calls w' = nm_calls w.
Proof.
  intros Hm Hd. rewrite (delete_provider_one_run uuid w conn Hm).
  cbn [for_each]. unfold bind, remove_certificate, bind, vpn_data_get.
  rewrite Hd. by eexists.
Qed.

(** X4. [delete_provider] on the one connection with the uuid, when its
    record has the [ca] entry and lacks the [cert] entry: the [ca] file is
    removed (if it is a regular file), then the lookup of [cert] raises
    [KeyError]. The deletion is left half done: no request was sent and the
    connection stays, without its [ca] file. *)
Theorem delete_provider_missing_entry (uuid : string) (w : world) (conn : connection)
    (d : gmap string string) (ca : string) :
  matching uuid w = [conn] →
  vpn_data (GetSettings conn) = Some d →
  d !! "ca" = Some ca →
  d !! "cert" = None →
  ∃ w',
    delete_provider config_path uuid w = (Raise (KeyError "cert"), w')
    ∧ files w' = rm ca (files w)
    ∧ nm_connections w' = nm_connections w
    ∧ nm_calls w' = nm_calls w.
Proof.
  intros Hm Hd Hca Hcert. rewrite (delete_provider_one_run uuid w conn Hm).
  cbn [for_each]. unfold bind at 1 2.
  rewrite (remove_certificate_run conn "ca" d ca _ Hd Hca).
  unfold bind at 1, remove_certificate at 1, bind at 1, vpn_data_get.
  rewrite Hd, Hcert. cbn [raise].
  eexists. split; [reflexivity|].
  match goal with
  | |- context [cert_step ?p ?w0] =>
      destruct (cert_step_spec p w0) as (F & C & _ & K & _)
  end.
  rewrite F, C, K. done.
Qed.

(** X5. [delete_provider] followed by [list_providers], the connections of
    the service having distinct object paths. After a deletion that
    returned normally the listing does not raise, has one entry for each
    VPN connection left, none of them for the uuid deleted, and every
    connection with another uuid is still a connection of the service. *)
Theorem delete_provider_then_list (uuid : string) (w w1 : world) :
  NoDup (obj_path <$> nm_connections w) →
  delete_provider config_path uuid w = (Ok tt, w1) →
  ∃ entries w2,
    list_providers config_path json_loads w1 = (Ok entries, w2)
    ∧ length entries = length (vpn_settings w1)
    ∧ (∀ s, s ∈ vpn_settings w1 → conn_uuid s ≠ uuid)
    ∧ (∀ c, c ∈ nm_connections w → conn_uuid (GetSettings c) ≠ uuid →
            c ∈ nm_connections w1).
Proof.
  intros Hnd Hrun.
  pose proof (delete_provider_ok_gone config_path uuid w w1 Hrun) as Hgone.
  destruct (list_providers_loop_run config_path json_loads (vpn_settings w1)
              (add_log INFO ("There are " +:+ pretty (length (vpn_settings w1)) +:+
                             " VPN connections in networkmanager") w1))
    as (w2 & Hlist & _).
  eexists _, w2. split; [exact Hlist|]. split; [by rewrite length_fmap|]. split.
  - intros s Hs Hu. unfold vpn_settings in Hs.
    apply list_elem_of_fmap in Hs as (c & -> & Hc).
    apply list_elem_of_filter in Hc as [_ Hc].
    assert (c ∈ matching uuid w1) as Hin by (by apply list_elem_of_filter).
    rewrite Hgone in Hin. by apply not_elem_of_nil in Hin.
  - intros c Hc Hu.
    destruct (delete_provider_cases config_path uuid w) as (r & w' & Hrun' & Hcases).
    rewrite Hrun in Hrun'. injection Hrun' as <- <-.
    destruct Hcases as [(_ & [msg [=]] & _)
                       |(conn & Hm & [([k [=]] & _)
                                     |[([err [_ [=]]] & _)|(_ & _ & C & _)]])].
    rewrite C. apply list_elem_of_filter. split; [|done].
    intros Hp. apply Hu.
    assert (conn ∈ matching uuid w) as Hin by (rewrite Hm; apply list_elem_of_here).
    apply list_elem_of_filter in Hin as [Hcu Hin].
    by rewrite (same_path_same_connection _ c conn Hnd Hc Hin Hp).
Qed.



End delete_more.

(** ** Connecting and disconnecting *)

Section connect_properties.

Variable config_path : string.
Variable ActivateConnection : connection → string → string → M active_connection.

(** X6. [connect_provider] on a uuid whose profile was deleted: the lookup
    of the connection raises the service's error, and no activation is
    requested, whatever [ActivateConnection] would do. *)
Theorem connect_provider_after_delete (uuid : string) (w w1 : world) :
  delete_provider config_path uuid w = (Ok tt, w1) →
  ∃ w2,
    connect_provider ActivateConnection uuid w1
    = (Raise (DBusException "No connection with the UUID was found."), w2)
    ∧ nm_connections w2 = nm_connections w1
    ∧ nm_active w2 = nm_active w1
    ∧ nm_calls w2 = nm_calls w1
    ∧ files w2 = files w1.
Proof.
  intros Hrun. pose proof (delete_provider_ok_gone config_path uuid w w1 Hrun) as Hm.
  eexists. split.
  - unfold connect_provider, bind, logger_info, GetConnectionByUuid.
    cbn [nm_connections add_log]. fold (matching uuid w1). rewrite Hm. reflexivity.
  - done.
Qed.

End connect_properties.

Lemma for_each_deactivate_outcome conns w :
  (for_each conns DeactivateConnection w).1 = Ok tt
  ∨ ∃ err, (for_each conns DeactivateConnection w).1 = Raise (DBusException err).
Proof.
  revert w. induction conns as [|a rest IH]; intros w; [by left|].
  cbn [for_each]. unfold bind. unfold DeactivateConnection at 1 3.
  destruct (deactivate_error a) as [err|]; [right; by exists err|apply IH].
Qed.

(** X7. [disconnect_provider] and [is_provider_connected] agree on what is
    active: [disconnect_provider] raises its [EduvpnException] for 'no
    active connection' exactly when [is_provider_connected] returns [None]
    for the same uuid in the same state. *)
Theorem disconnect_raises_iff_status_none (uuid : string) (w : world) :
  (disconnect_provider uuid w).1
  = Raise (EduvpnException ("no active connection found with uuid " +:+ uuid))
  ↔ (is_provider_connected uuid w).1 = Ok None.
Proof.
  rewrite is_provider_connected_first. unfold first_active.
  unfold disconnect_provider, bind at 1 2, logger_info, ActiveConnections.
  cbn [nm_active add_log].
  destruct (filter (λ a, Uuid a = uuid) (nm_active w)) as [|a rest] eqn:E.
  - by cbn.
  - cbn [head length]. rewrite decide_False by done. split.
    + intros H.
      destruct (for_each_deactivate_outcome (a :: rest)
                  (add_log INFO
                     ("Disconnecting profile with uuid " +:+ uuid +:+
                      " using NetworkManager") w)) as [H'|[err H']];
        rewrite H' in H; discriminate H.
    + intros H. by apply matched_status_not_none in H.
Qed.

(** ** Rotating the keys *)

Section update_keys_properties.

Variable write_cert :
  value → string → string → gmap string fnode → outcome string * gmap string fnode.


End update_keys_properties.

(** ** The token, for every metadata file *)

Section token_properties.

Variable config_path : string.
Variable json_loads : string → option value.
Variable json_dump : value → string * option exn.

(** X11. Every run of [update_token]. It sends no request and leaves the
    connections alone. When the metadata file of the uuid is missing, is
    not a regular file, does not parse, or parses as something other than
    an object, the call raises and no file is changed. When it parses as an
    object, the file is rewritten with what [json.dump] wrote for the
    object with the new token, and the call raises exactly when [json.dump]
    did. *)
Theorem update_token_outcomes (uuid : string) (token : value) (w : world) :
  ∃ r w',
    update_token config_path json_loads json_dump uuid token w = (r, w')
    ∧ nm_connections w' = nm_connections w
    ∧ nm_active w' = nm_active w
    ∧ nm_calls w' = nm_calls w
    ∧ match load_metadata config_path json_loads (files w) uuid with
      | Some (VDict d) =>
          r = match (json_dump (VDict (dict_set "token" token d))).2 with
              | Some e => Raise e
              | None => Ok tt
              end
          ∧ files w'
            = <[os_path_join config_path (uuid +:+ ".json")
                := File (json_dump (VDict (dict_set "token" token d))).1]> (files w)
      | _ => (∃ e, r = Raise e) ∧ files w' = files w
      end.
Proof.
  unfold load_metadata.
  destruct (files w !! os_path_join config_path (uuid +:+ ".json"))
    as [[text|]|] eqn:Hf.
  - destruct (json_loads text) as [v|] eqn:Hj.
    + destruct v as [| | | | | |d|];
        try (unfold update_token, bind at 1 2, logger_info;
             rewrite json_load_run; cbn [files add_log]; rewrite Hf, Hj;
             unfold bind; cbn [set_item raise];
             eexists _, _; split; [reflexivity|]; cbn; eauto 10).
      pose proof (update_token_object_run config_path json_loads json_dump
                    uuid token w text d Hf Hj) as Hrun.
      cbv zeta in Hrun. eexists _, _. split; [exact Hrun|]. done.
    + unfold update_token, bind at 1 2, logger_info.
      rewrite json_load_run. cbn [files add_log]. rewrite Hf, Hj.
      eexists _, _. split; [reflexivity|]. cbn. eauto 10.
  - unfold update_token, bind at 1 2, logger_info.
    rewrite json_load_run. cbn [files add_log]. rewrite Hf.
    eexists _, _. split; [reflexivity|]. cbn. eauto 10.
  - unfold update_token, bind at 1 2, logger_info.
    rewrite json_load_run. cbn [files add_log]. rewrite Hf.
    eexists _, _. split; [reflexivity|]. cbn. eauto 10.
Qed.

(** X13. [update_token] followed by [list_providers]: once the token of a
    stored object was rewritten, [json.load] reading back what [json.dump]
    wrote, the listing gives the record with the new token for every VPN
    connection with the uuid, and the entries of the other connections are
    those of before. *)
Theorem update_token_then_list (uuid : string) (token : value) (w : world)
    (text text' : string) (d : dict) :
  let path := os_path_join config_path (uuid +:+ ".json") in
  let d' := dict_set "token" token d in
  files w !! path = Some (File text) →
  json_loads text = Some (VDict d) →
  json_dump (VDict d') = (text', None) →
  json_loads text' = Some (VDict d') →
  (∀ s, s ∈ vpn_settings w → conn_uuid s ≠ uuid →
        os_path_join config_path (conn_uuid s +:+ ".json") ≠ path) →
  ∃ w',
    update_token config_path json_loads json_dump uuid token w = (Ok tt, w')
    ∧ (list_providers config_path json_loads w').1
      = Ok ((λ s, if decide (conn_uuid s = uuid) then VDict d'
                  else list_entry config_path json_loads (files w) s)
              <$> vpn_settings w).
Proof.
  intros path d' Hfile Hjson Hdump Hround Hpaths.
  pose proof (update_token_object_run config_path json_loads json_dump
                uuid token w text d Hfile Hjson) as Hrun.
  cbv zeta in Hrun. fold path d' in Hrun. rewrite Hdump in Hrun. cbn [fst snd] in Hrun.
  eexists. split; [exact Hrun|].
  rewrite list_providers_result. f_equal.
  unfold vpn_settings. cbn [files set_files nm_connections add_log].
  apply list_fmap_ext. intros i s Hs.
  unfold list_entry, load_metadata.
  destruct (decide (conn_uuid s = uuid)) as [->|Hne].
  - fold path. by rewrite lookup_insert_eq, Hround.
  - rewrite lookup_insert_ne; [done|].
    intros Heq. eapply Hpaths; [|exact Hne|by rewrite Heq].
    unfold vpn_settings. by eapply list_elem_of_lookup_2.
Qed.

End token_properties.

(** ** Updating the configuration: every way it ends *)

Ltac post_step := apply post_bind; unfold post at 1.

Ltac nothing_sent :=
  split; [reflexivity|]; left; split; [by eexists|split; reflexivity].

Section update_more.

Variable parse_ovpn : string → outcome dict.
Variable ovpn_to_nm : dict → string → value → outcome settings.
Variable write_cert :
  value → string → string → gmap string fnode → outcome string * gmap string fnode.


(** The run of [update_config_provider] up to the lookup of the old
    connection, when the new configuration is usable. *)
Lemma update_config_provider_prefix uuid display_name config w
    config_dict ca ta ca_path ta_path fs1 fs2 nm_config :
  parse_ovpn config = Ok config_dict →
  dict_get "ca" config_dict = Some ca →
  write_cert ca "ca" uuid (files w) = (Ok ca_path, fs1) →
  dict_get "tls-auth" (dict_remove "ca" config_dict) = Some ta →
  write_cert ta "ta" uuid fs1 = (Ok ta_path, fs2) →
  ovpn_to_nm (dict_remove "tls-auth" (dict_remove "ca" config_dict)) uuid
    (VStr display_name) = Ok nm_config →
  update_config_provider parse_ovpn ovpn_to_nm write_cert uuid display_name config w
  = (old_conn <~ GetConnectionByUuid uuid ;;
     let old_settings := GetSettings old_conn in
     data <~ vpn_data_dict nm_config ;;
     cert <~ vpn_data_get old_settings "cert" ;;
     key <~ vpn_data_get old_settings "key" ;;
     let nm_config :=
       with_vpn_data nm_config (paths_update cert key ca_path ta_path data) in
     Delete old_conn ;;;
     insert_config nm_config ;;;
     ret tt)
      (set_files fs2
         (set_files fs1
            (add_log INFO
               ("updating config for " +:+ display_name +:+ " (" +:+ uuid +:+ ")") w))).
Proof.
  intros Hparse Hca Hwca Hta Hwta Hnm.
  unfold update_config_provider, bind at 1 2, logger_info.
  rewrite Hparse. cbn [lift_outcome].
  unfold bind at 1, dict_item. rewrite Hca. cbn [ret].
  unfold bind at 1, lift_fs at 1. cbn [files add_log]. rewrite Hwca.
  unfold bind at 1. rewrite Hta. cbn [ret].
  unfold bind at 1, lift_fs at 1. cbn [files set_files]. rewrite Hwta.
  unfold bind at 1. rewrite Hnm. cbn [lift_outcome]. reflexivity.
Qed.

(** X15. [update_config_provider] on a uuid that no connection has, with a
    configuration that parses: the [ca] and [ta] files of that uuid are
    written before the connection is looked up, so the call raises the
    service's error and leaves the two files behind, for a profile that
    does not exist. No request was sent. *)
Theorem update_config_provider_unknown_uuid
    (uuid display_name config : string) (w : world)
    (config_dict : dict) (ca ta : value) (ca_path ta_path : string)
    (fs1 fs2 : gmap string fnode) (nm_config : settings) :
  parse_ovpn config = Ok config_dict →
  dict_get "ca" config_dict = Some ca →
  write_cert ca "ca" uuid (files w) = (Ok ca_path, fs1) →
  dict_get "tls-auth" (dict_remove "ca" config_dict) = Some ta →
  write_cert ta "ta" uuid fs1 = (Ok ta_path, fs2) →
  ovpn_to_nm (dict_remove "tls-auth" (dict_remove "ca" config_dict)) uuid
    (VStr display_name) = Ok nm_config →
  matching uuid w = [] →
  ∃ w',
    update_config_provider parse_ovpn ovpn_to_nm write_cert uuid display_name config w
    = (Raise (DBusException "No connection with the UUID was found."), w')
    ∧ files w' = fs2
    ∧ nm_calls w' = nm_calls w
    ∧ nm_connections w' = nm_connections w.
Proof.
  intros Hparse Hca Hwca Hta Hwta Hnm Hnone.
  rewrite (update_config_provider_prefix _ _ _ _ _ _ _ _ _ _ _ _
             Hparse Hca Hwca Hta Hwta Hnm).
  unfold bind, GetConnectionByUuid. cbn [nm_connections set_files add_log].
  fold (matching uuid w). rewrite Hnone. by eexists.
Qed.

(** X16. [update_config_provider] is not atomic. When the service accepts
    the deletion of the old connection and refuses the insertion of the
    replacement, the call raises the service's error and the profile is
    lost: the old connection is no longer among those of the service, and
    nothing was inserted. *)
Theorem update_config_provider_insertion_refused
    (uuid display_name config : string) (w : world)
    (config_dict : dict) (ca ta : value) (ca_path ta_path : string)
    (fs1 fs2 : gmap string fnode) (nm_config : settings)
    (data old_data : gmap string string)
    (old_conn : connection) (others : list connection) (cert key err : string) :
  parse_ovpn config = Ok config_dict →
  dict_get "ca" config_dict = Some ca →
  write_cert ca "ca" uuid (files w) = (Ok ca_path, fs1) →
  dict_get "tls-auth" (dict_remove "ca" config_dict) = Some ta →
  write_cert ta "ta" uuid fs1 = (Ok ta_path, fs2) →
  ovpn_to_nm (dict_remove "tls-auth" (dict_remove "ca" config_dict)) uuid
    (VStr display_name) = Ok nm_config →
  vpn_data nm_config = Some data →
  matching uuid w = old_conn :: others →
  vpn_data (GetSettings old_conn) = Some old_data →
  old_data !! "cert" = Some cert →
  old_data !! "key" = Some key →
  delete_error old_conn = None →
  nm_add_error w = Some err →
  ∃ w',
    update_config_provider parse_ovpn ovpn_to_nm write_cert uuid display_name config w
    = (Raise (DBusException err), w')
    ∧ nm_connections w'
      = filter (λ c, obj_path c ≠ obj_path old_conn) (nm_connections w)
    ∧ (old_conn ∉ nm_connections w')
    ∧ (∃ s, nm_calls w'
            = nm_calls w ++ [CallDelete (obj_path old_conn); CallAddConnection s])
    ∧ files w' = fs2.
Proof.
  intros Hparse Hca Hwca Hta Hwta Hnm Hdata Hold Holddata Hcert Hkey Hdel Hadd.
  rewrite (update_config_provider_prefix _ _ _ _ _ _ _ _ _ _ _ _
             Hparse Hca Hwca Hta Hwta Hnm).
  unfold bind at 1, GetConnectionByUuid. cbn [nm_connections set_files add_log].
  fold (matching uuid w). rewrite Hold. cbv zeta.
  unfold bind at 1, vpn_data_dict. rewrite Hdata. cbn [ret].
  unfold bind at 1, vpn_data_get. rewrite Holddata, Hcert. cbn [ret].
  unfold bind at 1. rewrite Hkey. cbn [ret].
  unfold bind at 1, Delete. rewrite Hdel.
  unfold bind at 1, insert_config, bind, logger_info, AddConnection.
  cbn [nm_add_error set_connections add_call add_log set_files]. rewrite Hadd.
  eexists. split; [reflexivity|]. cbn. split; [done|]. split.
  - intros Hin. apply list_elem_of_filter in Hin as [Hne _]. by apply Hne.
  - split; [|done]. eexists. by rewrite <- app_assoc.
Qed.

End update_more.

(** ** Storing: every way it ends *)

Section store_properties.

Variable config_path : string.
Variable stored_metadata : list string.
Variable make_unique_id : world → string.
Variable format_like_ovpn : value → value → value → outcome string.
Variable parse_ovpn : string → outcome dict.
Variable ovpn_to_nm : dict → string → value → outcome settings.
Variable write_cert :
  value → string → string → gmap string fnode → outcome string * gmap string fnode.
Variable mkdir_p : string → gmap string fnode → outcome unit * gmap string fnode.
Variable store_metadata :
  string → dict → gmap string fnode → outcome unit * gmap string fnode.

Ltac nothing_stored :=
  split; [reflexivity|]; left; split; [by eexists|split; reflexivity].

Ltac lookup_step k l :=
  apply post_bind, post_dict_item;
  destruct (dict_get k l); [|nothing_stored].

Ltac write_step :=
  apply post_bind, post_lift_fs; cbn [files add_log set_files];
  match goal with
  | |- context [write_cert ?c ?k ?u ?fs] =>
      destruct (write_cert c k u fs) as [[?|?] ?]; cbn [fst snd]; [|nothing_stored]
  end.


End store_properties.

(** * The theorems on the sample installation *)

(** No connection has the uuid ["u9"]: [delete_provider] refuses and nothing
    is touched. *)
Lemma delete_provider_count_not_one_witness :
  ∃ w',
    delete_provider demo_config_path "u9" demo_world
    = (Raise (EduvpnException "0 connections matching uid u9"), w')
    ∧ files w' = files demo_world
    ∧ nm_connections w' = nm_connections demo_world
    ∧ nm_active w' = nm_active demo_world
    ∧ nm_calls w' = nm_calls demo_world.
Proof.
  apply (delete_provider_count_not_one demo_config_path "u9" demo_world).
  vm_compute. lia.
Defined.

(** Deleting ["u1"]: the [cert] file is missing and [key] is a directory;
    both failures are logged, the [ca] and [ta] files and the metadata file
    are removed and the connection is deleted. *)
Lemma delete_provider_failure_policy_witness :
  ∃ w',
    delete_provider demo_config_path "u1" demo_world = (Ok tt, w')
    ∧ nm_calls w' = [CallDelete 1]
    ∧ nm_connections w' = [demo_wifi; demo_locked]
    ∧ files w' !! "/certs/ca-u1" = None
    ∧ files w' !! "/certs/ta-u1" = None
    ∧ files w' !! "/home/user/.config/eduvpn/u1.json" = None
    ∧ files w' !! "/certs/key-u1" = Some Dir
    ∧ (∃ e, (ERROR, cert_msg "/certs/cert-u1" e) ∈ log w')
    ∧ (∃ e, (ERROR, cert_msg "/certs/key-u1" e) ∈ log w').
Proof.
  destruct (delete_provider_failure_policy demo_config_path "u1" demo_world
              demo_vpn demo_data
              "/certs/ca-u1" "/certs/cert-u1" "/certs/key-u1" "/certs/ta-u1")
    as (w' & K & L & Hrun & F & C & _); [reflexivity..|].
  exists w'. split; [exact Hrun|]. split; [exact K|]. split; [exact C|].
  split; [rewrite (F "/certs/ca-u1"); reflexivity|].
  split; [rewrite (F "/certs/ta-u1"); reflexivity|].
  split; [rewrite (F "/home/user/.config/eduvpn/u1.json"); reflexivity|].
  split; [rewrite (F "/certs/key-u1"); reflexivity|].
  split.
  - destruct (L "/certs/cert-u1") as (e & _ & He); [|reflexivity|by exists e].
    apply elem_of_cons. right. apply elem_of_cons. by left.
  - destruct (L "/certs/key-u1") as (e & _ & He); [|reflexivity|by exists e].
    do 2 (apply elem_of_cons; right). apply elem_of_cons. by left.
Defined.

(** Updating ["u1"]: the replacement keeps the [cert] and [key] paths of the
    old connection, and the old connection is deleted first. *)
Lemma update_config_provider_keeps_cert_key_witness :
  ∃ w' replacement new_data,
    update_config_provider demo_parse_ovpn demo_ovpn_to_nm demo_write_cert
      "u1" "Renamed" "NEWCA" demo_world = (Ok tt, w')
    ∧ nm_calls w' = [CallDelete 1; CallAddConnection replacement]
    ∧ vpn_data replacement = Some new_data
    ∧ new_data !! "cert" = Some "/certs/cert-u1"
    ∧ new_data !! "key" = Some "/certs/key-u1"
    ∧ new_data !! "ca" = Some "/certs/ca-u1"
    ∧ new_data !! "ta" = Some "/certs/ta-u1"
    ∧ files w' !! "/certs/ca-u1" = Some (File "NEWCA").
Proof.
  destruct (update_config_provider_keeps_cert_key
              demo_parse_ovpn demo_ovpn_to_nm demo_write_cert
              "u1" "Renamed" "NEWCA" demo_world
              [("remote", VStr "vpn.example.org"); ("ca", VStr "NEWCA");
               ("tls-auth", VStr "TA2")]
              (VStr "NEWCA") (VStr "TA2") "/certs/ca-u1" "/certs/ta-u1"
              (<["/certs/ca-u1" := File "NEWCA"]> demo_files)
              (<["/certs/ta-u1" := File "TA2"]>
                 (<["/certs/ca-u1" := File "NEWCA"]> demo_files))
              (Settings "Renamed" "u1" "vpn"
                 (Some (<["remote" := "vpn.example.org"]> ∅)))
              (<["remote" := "vpn.example.org"]> ∅) demo_data
              demo_vpn [] "/certs/cert-u1" "/certs/key-u1")
    as (w' & r & nd & Hrun & K & V & Hc & Hk & Hca & Hta & _ & _ & _ & F);
    [reflexivity..|].
  exists w', r, nd. split; [exact Hrun|]. split; [exact K|]. split; [exact V|].
  split; [rewrite Hc; reflexivity|].
  split; [rewrite Hk; reflexivity|].
  split; [exact Hca|]. split; [exact Hta|].
  rewrite F. vm_compute. reflexivity.
Defined.

(** Refreshing the token of ["u1"]: the file holds the text of the record
    with the new token, which reads back as that record; the display name
    is as before. *)
Lemma update_token_only_token_witness :
  ∃ w',
    update_token demo_config_path demo_json_loads demo_json_dump "u1"
      demo_token demo_world = (Ok tt, w')
    ∧ files w' !! "/home/user/.config/eduvpn/u1.json"
      = Some (File (demo_json_dumps (VDict demo_record_new)))
    ∧ load_metadata demo_config_path demo_json_loads (files w') "u1"
      = Some (VDict demo_record_new)
    ∧ dict_get "token" demo_record_new = Some demo_token
    ∧ dict_get "display_name" demo_record_new = Some (VStr "Demo VPN")
    ∧ other_fields "token" demo_record_new = other_fields "token" demo_record.
Proof.
  destruct (update_token_only_token demo_config_path demo_json_loads demo_json_dump
              "u1" demo_token demo_world
              demo_text (demo_json_dumps (VDict demo_record_new)) demo_record)
    as (w' & Hrun & F & L & T & O & P & _);
    [reflexivity|vm_compute; reflexivity..|].
  exists w'. split; [exact Hrun|]. split.
  - rewrite F. apply lookup_insert_eq.
  - split; [exact L|]. split; [exact T|]. split; [|exact P].
    change (dict_get "display_name" (dict_set "token" demo_token demo_record)
            = Some (VStr "Demo VPN")).
    rewrite O by discriminate. reflexivity.
Defined.

(** The metadata file of ["u6"] parses as JSON: it holds an array. The call
    raises at the assignment of the token, the file is as it was, and the
    record it stores is still the array, which has no token. *)
Lemma update_token_array_counterexample :
  let r := update_token demo_config_path demo_json_loads demo_json_dump "u6"
             demo_token demo_world in
  files demo_world !! "/home/user/.config/eduvpn/u6.json" = Some (File "[]")
  ∧ demo_json_loads "[]" = Some (VList [])
  ∧ (∃ msg, r.1 = Raise (TypeError msg))
  ∧ files r.2 = files demo_world
  ∧ load_metadata demo_config_path demo_json_loads (files r.2) "u6"
    = Some (VList []).
Proof.
  cbv zeta. split; [reflexivity|]. split; [vm_compute; reflexivity|].
  split; [eexists; vm_compute; reflexivity|]. split; reflexivity.
Qed.

(** ["u1"] is connected and has both addresses; ["u4"] is still activating. *)
Lemma is_provider_connected_matched_witness :
  is_provider_connected "u1" demo_world
  = (Ok (Some ("10.0.0.5", "fd00::5")),
     add_log INFO "getting list of active connections" demo_world)
  ∧ is_provider_connected "u4" demo_world
    = (Ok (Some ("", "")),
       add_log INFO "getting list of active connections" demo_world).
Proof.
  split.
  - destruct (is_provider_connected_matched "u1" demo_world demo_active_u1)
      as [H _]; [reflexivity|].
    apply (H eq_refl (AddressEntry "10.0.0.5" 24) [] (AddressEntry "fd00::5" 64) []);
      reflexivity.
  - destruct (is_provider_connected_matched "u4" demo_world demo_active_u4)
      as [_ H]; [reflexivity|].
    apply H. vm_compute. discriminate.
Defined.

(** ["u3"] is connected and has no IPv6 address. *)
Lemma is_provider_connected_index_error_witness :
  is_provider_connected "u3" demo_world
  = (Raise (IndexError "list index out of range"),
     add_log INFO "getting list of active connections" demo_world).
Proof.
  apply (is_provider_connected_index_error "u3" demo_world demo_active_u3).
  - vm_compute. reflexivity.
  - reflexivity.
  - right. reflexivity.
Defined.

(** The run of [delete_provider] on the profile ["u1"] of the sample. *)
Lemma delete_provider_demo_run :
  ∃ w1, delete_provider demo_config_path "u1" demo_world = (Ok tt, w1).
Proof.
  pose proof (delete_provider_run demo_config_path "u1" demo_world demo_vpn demo_data
                "/certs/ca-u1" "/certs/cert-u1" "/certs/key-u1" "/certs/ta-u1"
                eq_refl eq_refl eq_refl eq_refl eq_refl eq_refl) as Hrun.
  eexists. exact Hrun.
Qed.



(** ** The further properties on the sample installation *)

(** ["u1"] is deleted; a second deletion finds no connection. *)
Lemma delete_provider_twice_witness :
  ∃ w1 w2,
    delete_provider demo_config_path "u1" demo_world = (Ok tt, w1)
    ∧ delete_provider demo_config_path "u1" w1
      = (Raise (EduvpnException "0 connections matching uid u1"), w2)
    ∧ nm_connections w2 = nm_connections w1
    ∧ nm_calls w2 = nm_calls w1.
Proof.
  destruct delete_provider_demo_run as (w1 & Hrun).
  destruct (delete_provider_twice demo_config_path "u1" demo_world w1 Hrun)
    as (w2 & Hrun2 & _ & C & K).
  exists w1, w2. split; [exact Hrun|]. split; [exact Hrun2|]. split; [exact C|exact K].
Defined.

(** The wireless connection ["u2"] has no [vpn] block. *)
Lemma delete_provider_no_vpn_block_witness :
  ∃ w',
    delete_provider demo_config_path "u2" demo_world = (Raise (KeyError "vpn"), w')
    ∧ files w' = files demo_world
    ∧ nm_connections w' = nm_connections demo_world
    ∧ nm_calls w' = nm_calls demo_world.
Proof.
  apply (delete_provider_no_vpn_block demo_config_path "u2" demo_world demo_wifi);
    reflexivity.
Defined.

(** The record of ["u8"] has the [ca] path only: its [ca] file is removed,
    and the profile stays. *)
Lemma delete_provider_missing_entry_witness :
  ∃ w',
    delete_provider demo_config_path "u8" demo_world_partial
    = (Raise (KeyError "cert"), w')
    ∧ files w' !! "/certs/ca-u1" = None
    ∧ nm_connections w' = [demo_partial; demo_wifi]
    ∧ nm_calls w' = [].
Proof.
  destruct (delete_provider_missing_entry demo_config_path "u8" demo_world_partial
              demo_partial (<["ca" := "/certs/ca-u1"]> ∅) "/certs/ca-u1")
    as (w' & Hrun & F & C & K); [reflexivity..|].
  exists w'. split; [exact Hrun|]. rewrite F. split; [reflexivity|].
  split; [exact C|exact K].
Defined.

(** ["u1"] is deleted: the listing that follows has no entry for it, and
    the profile ["u5"] is still there. *)
Lemma delete_provider_then_list_witness :
  ∃ w1 entries w2,
    delete_provider demo_config_path "u1" demo_world = (Ok tt, w1)
    ∧ list_providers demo_config_path demo_json_loads w1 = (Ok entries, w2)
    ∧ (∀ s, s ∈ vpn_settings w1 → conn_uuid s ≠ "u1")
    ∧ demo_locked ∈ nm_connections w1.
Proof.
  destruct delete_provider_demo_run as (w1 & Hrun).
  destruct (delete_provider_then_list demo_config_path demo_json_loads "u1"
              demo_world w1)
    as (entries & w2 & Hlist & _ & Hnot & Hkeep).
  - apply (bool_decide_unpack _). vm_compute. exact I.
  - exact Hrun.
  - exists w1, entries, w2. split; [exact Hrun|]. split; [exact Hlist|].
    split; [exact Hnot|]. apply Hkeep; [|discriminate].
    do 2 (apply elem_of_cons; right). apply elem_of_cons. by left.
Defined.

(** ["u1"] is deleted: connecting it is refused by the lookup. *)
Lemma connect_provider_after_delete_witness :
  ∃ w1 w2,
    delete_provider demo_config_path "u1" demo_world = (Ok tt, w1)
    ∧ connect_provider demo_ActivateConnection "u1" w1
      = (Raise (DBusException "No connection with the UUID was found."), w2)
    ∧ nm_calls w2 = nm_calls w1.
Proof.
  destruct delete_provider_demo_run as (w1 & Hrun).
  destruct (connect_provider_after_delete demo_config_path demo_ActivateConnection
              "u1" demo_world w1 Hrun)
    as (w2 & Hrun2 & _ & _ & K & _).
  exists w1, w2. split; [exact Hrun|]. split; [exact Hrun2|exact K].
Defined.

(** A token that [json.dump] cannot serialise is given for ["u1"]: the
    metadata file is left with the start of the record. *)
Lemma update_token_dump_raises_witness :
  ∃ w',
    update_token demo_config_path demo_json_loads demo_json_dump "u1"
      demo_token_object demo_world
    = (Raise (TypeError "Object is not JSON serializable"), w')
    ∧ files w' !! "/home/user/.config/eduvpn/u1.json"
      = Some (File ("{" +:+ quoted "display_name" +:+ ": " +:+ quoted "Demo VPN"
                    +:+ ", " +:+ quoted "token" +:+ ": ")).
Proof.
  apply (update_token_dump_raises demo_config_path demo_json_loads demo_json_dump
           "u1" demo_token_object demo_world demo_text
           ("{" +:+ quoted "display_name" +:+ ": " +:+ quoted "Demo VPN"
            +:+ ", " +:+ quoted "token" +:+ ": ")
           demo_record (TypeError "Object is not JSON serializable"));
    [reflexivity|vm_compute; reflexivity..].
Defined.

(** The token of ["u1"] is refreshed: the listing gives the record with the
    new token, and the placeholder of ["u5"] as before. *)
Lemma update_token_then_list_witness :
  ∃ w',
    update_token demo_config_path demo_json_loads demo_json_dump "u1"
      demo_token demo_world = (Ok tt, w')
    ∧ (list_providers demo_config_path demo_json_loads w').1
      = Ok [VDict demo_record_new;
            VDict [("uuid", VStr "u5"); ("display_name", VStr "Locked VPN");
                   ("icon_data", VNone); ("connection_type", VStr "unknown")]].
Proof.
  destruct (update_token_then_list demo_config_path demo_json_loads demo_json_dump
              "u1" demo_token demo_world
              demo_text (demo_json_dumps (VDict demo_record_new)) demo_record)
    as (w' & Hrun & Hlist);
    [reflexivity|vm_compute; reflexivity..| |].
  - intros s Hs Hne.
    change (vpn_settings demo_world)
      with [GetSettings demo_vpn; GetSettings demo_locked] in Hs.
    rewrite !elem_of_cons in Hs.
    destruct Hs as [->|[->|Hs]]; [done|discriminate|].
    by apply not_elem_of_nil in Hs.
  - exists w'. split; [exact Hrun|]. rewrite Hlist. vm_compute. reflexivity.
Defined.

(** No connection has the uuid ["u9"]: the update raises, and has written
    the two files of a profile that does not exist. *)
Lemma update_config_provider_unknown_uuid_witness :
  ∃ w',
    update_config_provider demo_parse_ovpn demo_ovpn_to_nm demo_write_cert
      "u9" "Renamed" "NEWCA" demo_world
    = (Raise (DBusException "No connection with the UUID was found."), w')
    ∧ files w' !! "/certs/ca-u9" = Some (File "NEWCA")
    ∧ files w' !! "/certs/ta-u9" = Some (File "TA2")
    ∧ nm_calls w' = []
    ∧ nm_connections w' = nm_connections demo_world.
Proof.
  destruct (update_config_provider_unknown_uuid
              demo_parse_ovpn demo_ovpn_to_nm demo_write_cert
              "u9" "Renamed" "NEWCA" demo_world
              [("remote", VStr "vpn.example.org"); ("ca", VStr "NEWCA");
               ("tls-auth", VStr "TA2")]
              (VStr "NEWCA") (VStr "TA2") "/certs/ca-u9" "/certs/ta-u9"
              (<["/certs/ca-u9" := File "NEWCA"]> demo_files)
              (<["/certs/ta-u9" := File "TA2"]>
                 (<["/certs/ca-u9" := File "NEWCA"]> demo_files))
              (Settings "Renamed" "u9" "vpn"
                 (Some (<["remote" := "vpn.example.org"]> ∅))))
    as (w' & Hrun & F & K & C); [reflexivity..|].
  exists w'. split; [exact Hrun|]. rewrite F.
  split; [reflexivity|]. split; [reflexivity|]. split; [exact K|exact C].
Defined.

(** The service refuses every insertion: updating ["u1"] loses the profile. *)
Lemma update_config_provider_insertion_refused_witness :
  ∃ w',
    update_config_provider demo_parse_ovpn demo_ovpn_to_nm demo_write_cert
      "u1" "Renamed" "NEWCA" demo_world_full
    = (Raise (DBusException "org.freedesktop.NetworkManager.Settings.AddFailed"), w')
    ∧ nm_connections w' = [demo_wifi; demo_locked]
    ∧ demo_vpn ∉ nm_connections w'.
Proof.
  destruct (update_config_provider_insertion_refused
              demo_parse_ovpn demo_ovpn_to_nm demo_write_cert
              "u1" "Renamed" "NEWCA" demo_world_full
              [("remote", VStr "vpn.example.org"); ("ca", VStr "NEWCA");
               ("tls-auth", VStr "TA2")]
              (VStr "NEWCA") (VStr "TA2") "/certs/ca-u1" "/certs/ta-u1"
              (<["/certs/ca-u1" := File "NEWCA"]> demo_files)
              (<["/certs/ta-u1" := File "TA2"]>
                 (<["/certs/ca-u1" := File "NEWCA"]> demo_files))
              (Settings "Renamed" "u1" "vpn"
                 (Some (<["remote" := "vpn.example.org"]> ∅)))
              (<["remote" := "vpn.example.org"]> ∅) demo_data
              demo_vpn [] "/certs/cert-u1" "/certs/key-u1"
              "org.freedesktop.NetworkManager.Settings.AddFailed")
    as (w' & Hrun & C & Hnot & _); [reflexivity..|].
  exists w'. split; [exact Hrun|]. split; [exact C|exact Hnot].
Defined.

(** ** Runs on the sample installation *)

(** The service refuses to delete ["u5"]: its error comes out of
    [delete_provider], the connection stays, the [ca] file is gone and the
    metadata file is still there. *)
Example delete_provider_refused :
  let r := delete_provider demo_config_path "u5" demo_world in
  r.1 = Raise (DBusException "org.freedesktop.NetworkManager.Settings.PermissionDenied")
  ∧ nm_connections r.2 = nm_connections demo_world
  ∧ nm_calls r.2 = [CallDelete 3]
  ∧ files r.2 !! "/certs/ca-u1" = None
  ∧ files r.2 !! "/home/user/.config/eduvpn/u5.json" = Some (File "{not json").
Proof. repeat split; reflexivity. Qed.

(** The wireless connection ["u2"] has no [vpn] block: [delete_provider]
    stops on the first lookup, before anything is removed. *)
Example delete_provider_not_vpn :
  let r := delete_provider demo_config_path "u2" demo_world in
  r.1 = Raise (KeyError "vpn")
  ∧ files r.2 = files demo_world
  ∧ nm_calls r.2 = [].
Proof. repeat split; reflexivity. Qed.

(** Two VPN connections are listed: the record of ["u1"], and the
    placeholder for ["u5"], whose file does not parse. *)
Example list_providers_sample :
  (list_providers demo_config_path demo_json_loads demo_world).1
  = Ok [VDict demo_record;
        VDict [("uuid", VStr "u5"); ("display_name", VStr "Locked VPN");
               ("icon_data", VNone); ("connection_type", VStr "unknown")]].
Proof. vm_compute. reflexivity. Qed.

Example disconnect_provider_active :
  let r := disconnect_provider "u1" demo_world in
  r.1 = Ok tt ∧ nm_calls r.2 = [CallDeactivateConnection demo_active_u1].
Proof. split; reflexivity. Qed.

Example disconnect_provider_not_active :
  let r := disconnect_provider "u9" demo_world in
  r.1 = Raise (EduvpnException "no active connection found with uuid u9")
  ∧ nm_calls r.2 = [].
Proof. split; reflexivity. Qed.

(** A token that [json.dump] cannot serialise: the call raises, and the
    metadata file of ["u1"] is left with the text written before that, which
    no longer parses. *)
Example update_token_unserialisable :
  let r := update_token demo_config_path demo_json_loads demo_json_dump "u1"
             demo_token_object demo_world in
  r.1 = Raise (TypeError "Object is not JSON serializable")
  ∧ files r.2 !! "/home/user/.config/eduvpn/u1.json"
    = Some (File ("{" +:+ quoted "display_name" +:+ ": " +:+ quoted "Demo VPN"
                  +:+ ", " +:+ quoted "token" +:+ ": "))
  ∧ load_metadata demo_config_path demo_json_loads (files r.2) "u1" = None.
Proof. cbv zeta. split; [vm_compute; reflexivity|]. split; vm_compute; reflexivity. Qed.

(** [store_provider] called with its thirteen arguments stores the profile:
    a new connection with the four credential paths, and a metadata file. *)
Example store_provider_thirteen_arguments :
  let r := store_provider demo_config_path demo_stored_metadata demo_make_unique_id
             demo_format_like_ovpn demo_parse_ovpn demo_ovpn_to_nm demo_write_cert
             demo_mkdir_p demo_store_metadata demo_store_args demo_world in
  r.1 = Ok "u7"
  ∧ (conn_uuid ∘ GetSettings <$> nm_connections r.2) = ["u1"; "u2"; "u5"; "u7"]
  ∧ (last (nm_connections r.2) ≫= λ c, vpn_data (GetSettings c) ≫= λ d, d !! "cert")
    = Some "/certs/cert-u7"
  ∧ is_file (files r.2 !! "/home/user/.config/eduvpn/u7.json") = true.
Proof. repeat split; vm_compute; reflexivity. Qed.

(** The background step on the sample: the key pair and the configuration
    are fetched, the call to [store_provider] raises, nothing is stored. *)
Example background_sample :
  let r := _background demo_config_path demo_stored_metadata demo_make_unique_id
             demo_format_like_ovpn demo_parse_ovpn demo_ovpn_to_nm demo_write_cert
             demo_mkdir_p demo_store_metadata demo_create_keypair
             demo_get_profile_config demo_meta VNone demo_world in
  r.1 = Raise (TypeError "store_provider() missing 12 required positional arguments")
  ∧ nm_connections r.2 = nm_connections demo_world
  ∧ files r.2 = files demo_world
  ∧ idle_queue r.2
    = [ErrorHelper "can't store configuration"
         "TypeError store_provider() missing 12 required positional arguments";
       DialogHide].
Proof. repeat split; reflexivity. Qed.
